(** * MedCLIP experiment drivers: a shallow embedding and its properties

    The three driver scripts of the repository are embedded here:
    - [vision_text_pretrain/run_medclip_cl_pretrain.py]  (module [Pretrain]),
    - [eval_zeroshot_classification.py]                  (module [ZeroShot]),
    - [run_linear_probe.py]                              (module [LinearProbe]).

    Python exceptions are an explicit error result, the random draws of
    [DataFrame.sample] are an explicit argument, dictionaries whose key
    order is observed are insertion-ordered association lists and the
    others are [gmap]s.  What lives outside the three scripts (PIL, the
    tokenizer, the model, the prompt generators, the evaluator) is a
    field of a type class or an argument. *)

From Stdlib Require Import ZArith QArith Qround Reals Lra Lia.
From stdpp Require Import base option list strings gmap.

Local Open Scope Z_scope.

(** ** Python values shared by the three scripts *)

Module Py.

(** The exceptions the scripts can raise. *)
Inductive exn : Type :=
| ValueError          (* DataFrame.sample on an empty frame *)
| IndexError          (* index out of range; the tokenizer on no text *)
| KeyError            (* missing dictionary key *)
| RuntimeError        (* torch.cat of an empty list *)
| TypeError           (* len of a number *)
| AssertionError
| NotImplementedError
| IOError.            (* a file that cannot be opened *)

Inductive result (A : Type) : Type :=
| Ok (a : A)
| Raise (e : exn).
Arguments Ok {A} a.
Arguments Raise {A} e.

#[export] Instance result_ret : MRet result := fun A a => Ok a.
#[export] Instance result_bind : MBind result := fun A B f m =>
  match m with
  | Ok a => f a
  | Raise e => Raise e
  end.

Definition returns {A} (m : result A) : Prop := exists a, m = Ok a.
Definition raises {A} (m : result A) : Prop := exists e, m = Raise e.

(** [seq[i]] for a Python sequence: a negative index counts from the end. *)
Definition index_of {A} (l : list A) (i : Z) : result A :=
  let n := Z.of_nat (length l) in
  let j := if 0 <=? i then i else n + i in
  if (0 <=? j) && (j <? n)
  then match l !! Z.to_nat j with
       | Some a => Ok a
       | None => Raise IndexError
       end
  else Raise IndexError.

(** [DataFrame.sample()]: one row drawn at random; the draw is the
    argument [rnd].  pandas raises [ValueError] on an empty frame. *)
Definition sample {A} (frame : list A) (rnd : nat) : result A :=
  match frame with
  | [] => Raise ValueError
  | _ :: _ =>
      match frame !! (rnd mod length frame)%nat with
      | Some a => Ok a
      | None => Raise ValueError
      end
  end.

(** An insertion-ordered dictionary ([dict], [defaultdict]). *)
Definition odict (V : Type) : Type := list (string * V).

Definition dict_keys {V} (d : odict V) : list string := d.*1.

Fixpoint dict_get {V} (d : odict V) (k : string) : option V :=
  match d with
  | [] => None
  | (k', v) :: d' => if String.eqb k' k then Some v else dict_get d' k
  end.

(** [d[k] = v]: an existing key keeps its position. *)
Fixpoint dict_set {V} (d : odict V) (k : string) (v : V) : odict V :=
  match d with
  | [] => [(k, v)]
  | (k', v') :: d' =>
      if String.eqb k' k then (k', v) :: d' else (k', v') :: dict_set d' k v
  end.

(** [d.update(other)]. *)
Definition dict_update {V} (d other : odict V) : odict V :=
  fold_left (fun acc kv => dict_set acc kv.1 kv.2) other d.

(** [k in l] for a list of strings. *)
Definition str_in (k : string) (l : list string) : bool :=
  existsb (String.eqb k) l.

(** A script run: what it built and called so far, in order, and how
    it ended. *)
Definition script (E A : Type) : Type := (list E * result A)%type.

#[export] Instance script_ret {E} : MRet (script E) := fun A a => ([], Ok a).
#[export] Instance script_bind {E} : MBind (script E) := fun A B f m =>
  match m with
  | (t, Ok a) => let '(t', r) := f a in (t ++ t', r)
  | (t, Raise e) => (t, Raise e)
  end.

Definition emit {E} (e : E) : script E unit := ([e], Ok tt).
Definition lift {E A} (r : result A) : script E A := ([], r).

(** [assert b]. *)
Definition assert (b : bool) : result unit :=
  if b then Ok tt else Raise AssertionError.

End Py.
Export Py.

(** ** vision_text_pretrain/run_medclip_cl_pretrain.py *)

Module Pretrain.

(** What the script takes from PIL and the tokenizer.  An image tensor of shape (C, H, W) is the list of its C
    planes; [encode n text] is the token ids of one text truncated to
    the model maximum length [n]. *)
Class Externals : Type := {
  Image : Type;
  Plane : Type;
  Image_open : string -> result Image;
  encode : nat -> string -> list Z;
  pad_token_id : Z;
}.

(** [train_config]. *)
Record config : Type := {
  batch_size : Z;
  num_epochs : Z;
  warmup : Q;
  lr : Q;
  weight_decay : Q;
  eval_batch_size : Z;
  eval_steps : Z;
  save_steps : Z;
}.

Definition train_config : config := {|
  batch_size := 128;
  num_epochs := 3;
  warmup := 1 # 100;
  lr := 5 # 100000;
  weight_decay := 1 # 100;
  eval_batch_size := 128;
  eval_steps := 100;
  save_steps := 500;
|}.

(** [ImageTextContrastiveDataset._labels_]. *)
Definition _labels_ : list string :=
  ["No Finding"; "Enlarged Cardiomediastinum"; "Cardiomegaly";
   "Lung Lesion"; "Lung Opacity"; "Edema"; "Consolidation"; "Pneumonia";
   "Atelectasis"; "Pneumothorax"; "Pleural Effusion"; "Pleural Other";
   "Fracture"; "Support Devices"].

(** A row of the meta frame [self.df]: imgpath, report (missing = NaN =
    [None]) and the label columns, read by column name.  The frame is
    used as it is read: a label cell holds a number or is empty (NaN,
    [None]). *)
Record meta_row : Type := {
  imgpath : string;
  report : option string;
  label : string -> option Z;
}.

(** The sentence-label CSV as read: its header and its rows, in which
    any cell may be empty. *)
Record csv_sentence_row : Type := {
  csv_Reports : option string;
  csv_label : string -> option Z;
}.

Record csv_sentence_frame : Type := {
  csv_columns : list string;
  csv_rows : list csv_sentence_row;
}.

(** A row of the sentence database [self.sentence_label]. *)
Record sentence_row : Type := {
  Reports : string;
  sent_label : string -> Z;
}.

(** [fillna(0)] on one row: an empty label cell becomes 0.  An empty
    'Reports' cell becomes the number 0 too, on which [len] raises at
    the length filter of [__init__]; no frame with such a cell gets past
    that line, and the text given to it here is never read. *)
Definition fillna (r : csv_sentence_row) : sentence_row := {|
  Reports := default "0" (csv_Reports r);
  sent_label := fun l => default 0 (csv_label r l);
|}.

(** [frame[cols]] and [subset=cols] need the columns to be there. *)
Definition has_columns (frame : csv_sentence_frame) (cols : list string)
  : result unit :=
  if forallb (fun c => str_in c (csv_columns frame)) cols
  then Ok tt else Raise KeyError.

(** [frame['Reports'].map(len)] needs every cell to be a text. *)
Definition reports_have_len (frame : csv_sentence_frame) : result unit :=
  if forallb (fun r => bool_decide (is_Some (csv_Reports r))) (csv_rows frame)
  then Ok tt else Raise TypeError.

(** [pd.concat(frames, axis=0).reset_index(drop=True)]: there must be a
    frame to concatenate. *)
Definition pd_concat {A} (frames : list (list A)) : result (list A) :=
  match frames with
  | [] => Raise ValueError
  | _ :: _ => Ok (concat frames)
  end.

(** [drop_duplicates(subset='Reports')]: the first row of each report
    is kept. *)
Fixpoint drop_duplicates (seen : list string) (frame : list sentence_row)
  : list sentence_row :=
  match frame with
  | [] => []
  | s :: frame' =>
      if str_in (Reports s) seen
      then drop_duplicates seen frame'
      else s :: drop_duplicates (Reports s :: seen) frame'
  end.

(** A tensor whose first dimension is listed: the image after
    [unsqueeze(1)] has shape (C, 1, H, W). *)
Definition tensor `{Externals} : Type := list (list Plane).

Record ImageTextContrastiveDataset `{Externals} : Type := {
  df : list meta_row;
  transform : Image -> list Plane;
  sentence_label : list sentence_row;
  negative_sent_label : list sentence_row;
}.

(** [__init__], given the frames the CSV files hold. *)
Definition init `{Externals}
    (read_meta_csv : string -> result (list meta_row))
    (read_sentence_csv : string -> result csv_sentence_frame)
    (datalist : list string) (imgtransform : Image -> list Plane)
  : result ImageTextContrastiveDataset :=
  df_list ← mapM (fun data =>
      read_meta_csv ("./local_data/" +:+ data +:+ "-meta.csv")) datalist;
  df ← pd_concat df_list;
  raw ← read_sentence_csv "./local_data/iuxray-sentence-label.csv";
  let sl := fillna <$> csv_rows raw in
  has_columns raw ["Reports"];;
  let sl := drop_duplicates [] sl in
  reports_have_len raw;;
  let sl := List.filter (fun s => (2 <? String.length (Reports s))%nat) sl in
  has_columns raw _labels_;;
  let neg :=
    List.filter (fun s =>
      Nat.ltb 0 (length (List.filter (fun l => Z.eqb (sent_label s l) (-1))
                                     _labels_)))
      sl in
  mret {| df := df; transform := imgtransform;
          sentence_label := sl; negative_sent_label := neg |}.

(** [tensor.unsqueeze(1)] of a (C, H, W) tensor. *)
Definition unsqueeze1 `{Externals} (t : list Plane) : tensor :=
  (fun p => [p]) <$> t.

(** A number times a cell: the product with NaN is NaN. *)
Definition times (a : Z) (c : option Z) : option Z := Z.mul a <$> c.

(** [cell < 0] and [cell == 0]: both are False on NaN. *)
Definition is_negative (c : option Z) : bool :=
  match c with
  | Some z => z <? 0
  | None => false
  end.

Definition is_zero (c : option Z) : bool :=
  match c with
  | Some z => z =? 0
  | None => false
  end.

(** [bool_sent_label[bool_sent_label < 0] = 0], one cell. *)
Definition zero_negative (c : option Z) : option Z :=
  if is_negative c then Some 0 else c.

(** One row of [bool_sent_label]: the sentence's labels times the
    row's, negative products zeroed, in the column order [_labels_]. *)
Definition bool_sent_label (row : meta_row) (s : sentence_row)
  : list (option Z) :=
  (fun l => zero_negative (times (sent_label s l) (label row l))) <$> _labels_.

(** [(cells == 0).all(1)] on one row. *)
Definition all_zero (cells : list (option Z)) : bool := forallb is_zero cells.

(** The frame [sents] of [__getitem__]: the sentences with a nonzero
    cell of [bool_sent_label] outside its first column. *)
Definition sents `{Externals} (self : ImageTextContrastiveDataset)
    (row : meta_row) : list sentence_row :=
  List.filter (fun s => negb (all_zero (drop 1 (bool_sent_label row s))))
              (sentence_label self).

(** The frame sampled when [sents] is empty. *)
Definition fallback `{Externals} (self : ImageTextContrastiveDataset)
    (row : meta_row) : list sentence_row :=
  List.filter (fun s => negb (all_zero (bool_sent_label row s)))
              (sentence_label self).

(** [__getitem__]; [rnd] is the draw of [sample()]. *)
Definition getitem `{Externals} (self : ImageTextContrastiveDataset)
    (index : Z) (rnd : nat) : result (tensor * string) :=
  row ← index_of (df self) index;
  img ← Image_open (imgpath row);
  let img := unsqueeze1 (transform self img) in
  let report := default "" (report row) in
  if all_zero (label row <$> _labels_) then
    sampled_sent ←
      sample (List.filter (fun s => 0 <? sent_label s "No Finding")
                          (sentence_label self)) rnd;
    mret (img, report +:+ " " +:+ Reports sampled_sent)
  else
    sampled_sent ←
      (if (length (sents self row) =? 0)%nat
       then sample (fallback self row) rnd
       else sample (sents self row) rnd);
    mret (img, report +:+ " " +:+ Reports sampled_sent).

(** [__len__]. *)
Definition len `{Externals} (self : ImageTextContrastiveDataset) : nat :=
  length (df self).

(** A value of the dictionary [collate_fn] builds: the Python list of
    image tensors while the batch is read, then tensors. *)
Inductive batch_value `{Externals} : Type :=
| TensorList (ts : list tensor)
| Pixels (t : tensor)
| TokenMatrix (m : list (list Z)).

(** [tokenizer.model_max_length = 77]. *)
Definition model_max_length : nat := 77.

(** The tokenizer's output for a list of texts. *)
Record BatchEncoding : Type := {
  input_ids : list (list Z);
  attention_mask : list (list Z);
}.

(** One encoded text padded on the right to [width], and its mask: 1
    on tokens, 0 on padding. *)
Definition pad_to `{Externals} (width : nat) (e : list Z) : list Z :=
  e ++ replicate (width - length e) pad_token_id.

Definition mask_to (width : nat) (e : list Z) : list Z :=
  replicate (length e) 1 ++ replicate (width - length e) 0.

(** The encoding of a batch of texts: each text is encoded and
    truncated on its own, then every row is padded to the longest row
    of the batch. *)
Definition encode_batch `{Externals} (texts : list string) : BatchEncoding :=
  let encs := encode model_max_length <$> texts in
  let width := max_list (length <$> encs) in
  {| input_ids := pad_to width <$> encs;
     attention_mask := mask_to width <$> encs |}.

(** [tokenizer(texts, truncation=True, padding=True, return_tensors='pt')];
    on an empty list of texts the call raises [IndexError]. *)
Definition tokenizer `{Externals} (texts : list string)
  : result BatchEncoding :=
  match texts with
  | [] => Raise IndexError
  | _ :: _ => Ok (encode_batch texts)
  end.

(** [torch.cat(ts, 0)]: the tensors joined along the first dimension;
    an empty list is an error. *)
Definition torch_cat `{Externals} (ts : list tensor) : result tensor :=
  match ts with
  | [] => Raise RuntimeError
  | _ :: _ => Ok (concat ts)
  end.

(** [inputs[k]] read as a list on a [defaultdict(list)]. *)
Definition tensor_list `{Externals} (v : option batch_value) : list tensor :=
  match v with
  | Some (TensorList ts) => ts
  | _ => []
  end.

(** The [for data in batch] loop of [collate_fn], one step. *)
Definition collate_step `{Externals}
    (st : gmap string batch_value * list string) (data : tensor * string)
  : gmap string batch_value * list string :=
  let '(inputs, report_list) := st in
  (<["pixel_values" :=
       TensorList (tensor_list (inputs !! "pixel_values") ++ [data.1])]> inputs,
   report_list ++ [data.2]).

Definition collate_fn `{Externals} (batch : list (tensor * string))
  : result (gmap string batch_value) :=
  let '(inputs, report_list) := fold_left collate_step batch (∅, []) in
  text_inputs ← tokenizer report_list;
  pixel_values ← torch_cat (tensor_list (inputs !! "pixel_values"));
  let inputs := <["pixel_values" := Pixels pixel_values]> inputs in
  let inputs := <["input_ids" := TokenMatrix (input_ids text_inputs)]> inputs in
  let inputs :=
    <["attention_mask" := TokenMatrix (attention_mask text_inputs)]> inputs in
  mret inputs.

(** [ImageTextContrastiveLoss]: the wrapped model is a call with the
    keyword arguments [input_ids], [pixel_values], [attention_mask] and
    [return_loss], returning a dictionary. *)
Record ImageTextContrastiveLoss (T V : Type) : Type := {
  model : option T -> option T -> option T -> bool -> result (gmap string V);
}.
Arguments model {T V} _ _ _ _ _.

(** [outputs[k]]. *)
Definition getitem_str {V} (d : gmap string V) (k : string) : result V :=
  match d !! k with
  | Some v => Ok v
  | None => Raise KeyError
  end.

(** [ImageTextContrastiveLoss.forward]; [kwargs] is accepted and unused. *)
Definition forward {T V} (self : ImageTextContrastiveLoss T V)
    (input_ids pixel_values attention_mask : option T)
    (kwargs : gmap string T) : result (gmap string V) :=
  outputs ← model self input_ids pixel_values attention_mask true;
  loss_value ← getitem_str outputs "loss_value";
  mret {[ "loss_value" := loss_value ]}.

(** [math.ceil(len(traindata) * train_config['num_epochs'] *
    train_config['warmup'])].  The product is taken exactly, 0.01 being
    1/100: the double product of an integer below 10^13 with 0.01 has the
    same ceiling. *)
Definition warmup_steps (len_traindata : nat) : Z :=
  Qceiling (inject_Z (Z.of_nat len_traindata * num_epochs train_config)
            * warmup train_config).

End Pretrain.

(** ** eval_zeroshot_classification.py *)

Module ZeroShot.

(** A metric value returned by the evaluator: a number, or an array
    (the 'pred' and 'labels' entries). *)
Inductive metric : Type :=
| Scalar (x : R)
| Array (xs : list R).

(** What the script imports from the [medclip] package and pandas.  The
    prompt generators and the evaluator draw at random or depend on the
    run; the run number stands for that. *)
Class Library : Type := {
  Frame : Type;
  read_csv : string -> Frame;
  CHEXPERT_COMPETITION_TASKS : list string;
  COVID_TASKS : list string;
  RSNA_TASKS : list string;
  generate_class_prompts :
    nat -> Frame -> list string -> Z -> odict (list string);
  generate_chexpert_class_prompts : nat -> Z -> odict (list string);
  generate_covid_class_prompts : nat -> Z -> odict (list string);
  generate_rsna_class_prompts : nat -> Z -> odict (list string);
  (* Evaluator(medclip_clf, eval_dataloader, mode).evaluate() of run i,
     for the validation data of [dataname] with the class names
     [tasks], the prompts and the mode *)
  evaluate :
    nat -> string -> list string -> odict (list string) -> string
    -> gmap string metric;
}.

Inductive event : Type :=
| MedClipModel_built (vision_cls : string) (text_proj_bias : bool)
    (checkpoint : string)
| Model_cuda
| ZeroShotImageDataset_built (datalist : list string)
    (class_names : list string)
| Csv_read (path : string)
| ZeroShotImageCollator_built (mode : string)
| DataLoader_built (batch_size : Z)
| MedClipPromptClassifier_built (ensemble : bool)
| Evaluator_built (mode : string)
| Evaluate_called (run : nat).

Definition n_runs : nat := 5.
Definition ensemble : bool := true.
Definition vit : bool := true.

(** The first [if dataname in ...] chain. *)
Definition tasks_of `{Library} (dataname : string) : result (list string) :=
  if str_in dataname ["chexpert-5x200"; "mimic-5x200"]
  then Ok CHEXPERT_COMPETITION_TASKS
  else if str_in dataname ["covid-test"; "covid-2x200-test"]
  then Ok COVID_TASKS
  else if str_in dataname ["rsna-balanced-test"; "rsna-2x200-test"]
  then Ok RSNA_TASKS
  else Raise NotImplementedError.

(** Collator, data loader, classifier and evaluator of one run, then
    [evaluator.evaluate()]. *)
Definition build_and_evaluate `{Library} (i : nat) (dataname : string)
    (tasks : list string) (cls_prompts : odict (list string)) (mode : string)
  : script event (gmap string metric) :=
  emit (ZeroShotImageCollator_built mode);;
  emit (DataLoader_built 128);;
  emit (MedClipPromptClassifier_built ensemble);;
  emit (Evaluator_built mode);;
  emit (Evaluate_called i);;
  mret (evaluate i dataname tasks cls_prompts mode).

(** [assert list(cls_prompts.keys())[1] == tasks[1]]. *)
Definition assert_second_key (cls_prompts : odict (list string))
    (tasks : list string) : result unit :=
  k ← index_of (dict_keys cls_prompts) 1;
  t ← index_of tasks 1;
  assert (String.eqb k t).

(** The body of [for i in range(n_runs)] up to [res]. *)
Definition run `{Library} (df_sent : Frame) (dataname : string)
    (tasks : list string) (i : nat) : script event (gmap string metric) :=
  if str_in dataname ["chexpert-5x200"; "mimic-5x200"] then
    let cls_prompts := generate_chexpert_class_prompts i 10 in
    lift (assert (bool_decide (dict_keys cls_prompts = tasks)));;
    build_and_evaluate i dataname tasks cls_prompts "multiclass"
  else if str_in dataname ["covid-test"; "covid-2x200-test"] then
    let cls_prompts := generate_class_prompts i df_sent ["No Finding"] 10 in
    let covid_prompts := generate_covid_class_prompts i 10 in
    let cls_prompts := dict_update cls_prompts covid_prompts in
    lift (assert_second_key cls_prompts tasks);;
    build_and_evaluate i dataname tasks cls_prompts "binary"
  else if str_in dataname ["rsna-balanced-test"; "rsna-2x200-test"] then
    let cls_prompts := generate_class_prompts i df_sent ["No Finding"] 10 in
    let rsna_prompts := generate_rsna_class_prompts i 10 in
    let cls_prompts := dict_update cls_prompts rsna_prompts in
    lift (assert_second_key cls_prompts tasks);;
    build_and_evaluate i dataname tasks cls_prompts "binary"
  else lift (Raise NotImplementedError).

(** [if key not in ['pred', 'labels']: metrc_list[key].append(res[key])]
    on the [defaultdict(list)]. *)
Definition collect_step (key : string) (value : metric)
    (metrc_list : gmap string (list metric)) : gmap string (list metric) :=
  if negb (str_in key ["pred"; "labels"])
  then <[key := default [] (metrc_list !! key) ++ [value]]> metrc_list
  else metrc_list.

(** [for key in res.keys(): ...]. *)
Definition collect (res : gmap string metric)
    (metrc_list : gmap string (list metric)) : gmap string (list metric) :=
  map_fold collect_step metrc_list res.

(** The runs [todo], in order. *)
Fixpoint runs `{Library} (df_sent : Frame) (dataname : string)
    (tasks : list string) (todo : list nat)
    (metrc_list : gmap string (list metric))
  : script event (gmap string (list metric)) :=
  match todo with
  | [] => mret metrc_list
  | i :: todo' =>
      res ← run df_sent dataname tasks i;
      runs df_sent dataname tasks todo' (collect res metrc_list)
  end.

(** The numbers in a list of metric values, as numpy flattens them. *)
Definition flatten (value : list metric) : list R :=
  value ≫= (fun v => match v with Scalar x => [x] | Array xs => xs end).

Definition sum_R (xs : list R) : R := fold_right Rplus 0%R xs.

(** [np.mean]: the arithmetic mean, as the exact number; the rounding
    of numpy's binary64 arithmetic is not part of the model. *)
Definition np_mean (xs : list R) : R := (sum_R xs / INR (length xs))%R.

(** [np.std] (ddof = 0): the square root of the mean of the squared
    deviations from the mean, as the exact number (no binary64
    rounding). *)
Definition np_std (xs : list R) : R :=
  sqrt (np_mean ((fun x => Rsqr (x - np_mean xs)) <$> xs)).

(** What the last loop prints for one key: [np.mean(value)] and
    [np.std(value)]. *)
Definition summary (value : list metric) : R * R :=
  (np_mean (flatten value), np_std (flatten value)).

(** The whole script for a value of [dataname]; its value is what the
    last loop prints: for each key the mean and the std. *)
Definition main `{Library} (dataname : string)
  : script event (gmap string (R * R)) :=
  (if vit
   then emit (MedClipModel_built "MedClipVisionModelViT" true
          "/srv/local/data/MedCLIP/checkpoints/vision_text_pretrain/25000/")
   else emit (MedClipModel_built "MedClipVisionModel" false
          "/srv/local/data/MedCLIP/checkpoints/vision_text_pretrain/21000/"));;
  emit Model_cuda;;
  tasks ← lift (tasks_of dataname);
  emit (ZeroShotImageDataset_built [dataname] tasks);;
  emit (Csv_read "./local_data/sentence-label.csv");;
  let df_sent := read_csv "./local_data/sentence-label.csv" in
  metrc_list ← runs df_sent dataname tasks (seq 0 n_runs) ∅;
  mret (summary <$> metrc_list).

End ZeroShot.

(** ** run_linear_probe.py *)

Module LinearProbe.

(** A [torch.nn.Parameter]: its tensor and its [requires_grad] flag. *)
Record parameter (T : Type) : Type := {
  data : T;
  requires_grad : bool;
}.
Arguments data {T} _.
Arguments requires_grad {T} _.

(** What the script imports from the [medclip] package.
    [named_parameters] is [clf.named_parameters()] of the classifier the
    script builds; [updates] is, for each optimizer step of the training
    run, the new tensor of a trained parameter, given the classifier
    before the step and the parameter's name and tensor. *)
Class Library : Type := {
  Tensor : Type;
  CHEXPERT_COMPETITION_TASKS : list string;
  COVID_TASKS : list string;
  RSNA_TASKS : list string;
  named_parameters :
    bool -> Z -> string -> Z -> list (string * parameter Tensor);
  updates :
    list (list (string * parameter Tensor) -> string -> Tensor -> Tensor);
}.

Record task_config : Type := {
  tasks : list string;
  num_class : Z;
  mode : string;
  train_dataname : string;
  val_dataname : string;
}.

Inductive event : Type :=
| VisionModel_built (vision_cls : string) (medclip_checkpoint : string)
| MedClipClassifier_built (num_class : Z) (mode : string) (input_dim : Z)
| Clf_cuda
| SuperviseImageDataset_built (datalist : list string)
    (class_names : list string)
| SuperviseImageCollator_built (mode : string)
| DataLoader_built (batch_size : Z) (shuffle : bool)
| Trainer_built
| Evaluator_built (mode : string)
| Train_called (epochs : Z)
| Evaluate_called.

Definition vit : bool := false.

(** The [if dataname in ...] chain. *)
Definition configure `{Library} (dataname : string) : result task_config :=
  if str_in dataname ["chexpert-5x200"; "mimic-5x200"] then
    Ok {| tasks := CHEXPERT_COMPETITION_TASKS; num_class := 5;
          mode := "multiclass";
          train_dataname := dataname +:+ "-finetune";
          val_dataname := dataname |}
  else if String.eqb dataname "covid" then
    Ok {| tasks := COVID_TASKS; num_class := 2; mode := "binary";
          train_dataname := dataname +:+ "-0.2-train";
          val_dataname := dataname +:+ "-test" |}
  else if String.eqb dataname "covid-2x200" then
    Ok {| tasks := COVID_TASKS; num_class := 2; mode := "binary";
          train_dataname := dataname +:+ "-train";
          val_dataname := dataname +:+ "-test" |}
  else if str_in dataname ["rsna-balanced"; "rsna-2x200"] then
    Ok {| tasks := RSNA_TASKS; num_class := 2; mode := "binary";
          train_dataname := dataname +:+ "-train";
          val_dataname := dataname +:+ "-test" |}
  else Raise NotImplementedError.

(** One turn of [for name, param in clf.named_parameters()]. *)
Definition freeze_one {T} (np : string * parameter T) : string * parameter T :=
  let '(name, param) := np in
  if negb (str_in name ["fc.weight"; "fc.bias"])
  then (name, {| data := data param; requires_grad := false |})
  else (name, param).

(** The freezing loop. *)
Definition freeze {T} (clf : list (string * parameter T))
  : list (string * parameter T) :=
  freeze_one <$> clf.

(** Modelled from the spec: the trainer ([medclip.trainer.Trainer], over
    the framework's automatic differentiation and optimizer) is not among
    the three scripts.  The head is fine-tuned "on frozen vision
    features": an optimizer step gives a new tensor to the parameters
    whose [requires_grad] is set and leaves every other parameter as it
    is. *)
Definition optimizer_step {T}
    (update : list (string * parameter T) -> string -> T -> T)
    (clf : list (string * parameter T)) : list (string * parameter T) :=
  (fun '(name, param) =>
     if requires_grad param
     then (name, {| data := update clf name (data param);
                    requires_grad := true |})
     else (name, param)) <$> clf.

(** Modelled from the spec: [trainer.train], as the sequence of its
    optimizer steps. *)
Definition train {T}
    (steps : list (list (string * parameter T) -> string -> T -> T))
    (clf : list (string * parameter T)) : list (string * parameter T) :=
  fold_left (fun c update => optimizer_step update c) steps clf.

(** The whole script for a value of [dataname]; its value is the
    classifier's named parameters after training. *)
Definition main `{Library} (dataname : string)
  : script event (list (string * parameter Tensor)) :=
  cfg ← lift (configure dataname);
  let input_dim := if vit then 768 else 512 in
  (if vit
   then emit (VisionModel_built "MedClipVisionModelViT"
          "/srv/local/data/MedCLIP/checkpoints/vision_text_pretrain/25000/")
   else emit (VisionModel_built "MedClipVisionModel"
          "/srv/local/data/MedCLIP/checkpoints/vision_text_pretrain/21000/"));;
  emit (MedClipClassifier_built (num_class cfg) (mode cfg) input_dim);;
  let clf := named_parameters vit (num_class cfg) (mode cfg) input_dim in
  emit Clf_cuda;;
  let clf := freeze clf in
  emit (SuperviseImageDataset_built [train_dataname cfg] (tasks cfg));;
  emit (SuperviseImageCollator_built (mode cfg));;
  emit (DataLoader_built 64 true);;
  emit (SuperviseImageDataset_built [val_dataname cfg] (tasks cfg));;
  emit (SuperviseImageCollator_built (mode cfg));;
  emit (DataLoader_built 256 false);;
  emit Trainer_built;;
  emit (Evaluator_built (mode cfg));;
  emit (Train_called 10);;
  let clf := train updates clf in
  emit Evaluate_called;;
  mret clf.

End LinearProbe.

(** ** The vocabulary of the properties of the pretraining dataset *)

Module PretrainSpec.
Import Pretrain.

(** The 13 labels other than 'No Finding'. *)
Definition pathology_labels : list string :=
  ["Enlarged Cardiomediastinum"; "Cardiomegaly"; "Lung Lesion";
   "Lung Opacity"; "Edema"; "Consolidation"; "Pneumonia"; "Atelectasis";
   "Pneumothorax"; "Pleural Effusion"; "Pleural Other"; "Fracture";
   "Support Devices"].

(** The row has at least one nonzero structured label. *)
Definition has_label (row : meta_row) : Prop :=
  exists l z, In l _labels_ /\ label row l = Some z /\ z <> 0.

(** All 14 structured labels of the row are zero. *)
Definition no_label (row : meta_row) : Prop :=
  forall l, In l _labels_ -> label row l = Some 0.

(** No label cell of the row is empty (NaN). *)
Definition all_present (row : meta_row) : Prop :=
  forall l, In l _labels_ -> exists z, label row l = Some z.

(** The product of the sentence's and the row's label in column [l] is
    a positive number. *)
Definition positive_product (row : meta_row) (s : sentence_row) (l : string)
  : Prop :=
  exists z, label row l = Some z /\ 0 < sent_label s l * z.

(** The sentence has a positive product in one of the columns [cols]. *)
Definition matches_on (cols : list string) (row : meta_row) (s : sentence_row)
  : Prop :=
  exists l, In l cols /\ positive_product row s l.

(** The report of the row, or the empty string when it is missing,
    followed by a space and the sentence. *)
Definition appended (row : meta_row) (s : sentence_row) : string :=
  match report row with Some r => r | None => "" end
  +:+ " " +:+ Reports s.

(** The outcomes of a random computation [f] are exactly the values
    [out a] for the [a] of the pool [P]. *)
Definition drawn_exactly_from {A B} (f : nat -> result B) (P : A -> Prop)
    (out : A -> B) : Prop :=
  (forall rnd b, f rnd = Ok b -> exists a, P a /\ b = out a) /\
  (forall a, P a -> exists rnd, f rnd = Ok (out a)).

(** Row [i] of [pixel_values] is the image tensor of batch item [i]:
    the item's tensor is that one row. *)
Definition rows_are_items `{Externals} (batch : list (tensor * string))
    (pixel_values : tensor) : Prop :=
  length pixel_values = length batch /\
  forall i data, batch !! i = Some data ->
    exists row, pixel_values !! i = Some row /\ data.1 = [row].

(** Row [i] of the token matrices is the tokenization of the report of
    batch item [i], padded to the longest of the batch. *)
Definition rows_are_reports `{Externals} (batch : list (tensor * string))
    (ids mask : list (list Z)) : Prop :=
  let width :=
    max_list ((fun data => length (encode model_max_length data.2))
                <$> batch) in
  length ids = length batch /\ length mask = length batch /\
  forall i data, batch !! i = Some data ->
    ids !! i = Some (pad_to width (encode model_max_length data.2)) /\
    mask !! i = Some (mask_to width (encode model_max_length data.2)).

(** The batches of one epoch: the length of the [DataLoader] over [n]
    examples (the last batch may be short). *)
Definition steps_per_epoch (n : nat) : Z :=
  (Z.of_nat n + batch_size train_config - 1) / batch_size train_config.

(** One percent of the optimizer steps of the whole training, rounded
    up: what the comment of [train_config] describes. *)
Definition one_percent_of_steps (n : nat) : Z :=
  Qceiling (inject_Z (steps_per_epoch n * num_epochs train_config)
            * warmup train_config).

End PretrainSpec.

(** ** The vocabulary of the properties of the two evaluation scripts *)

Module ScriptSpec.

(** The values of [dataname] the zero-shot script recognizes. *)
Definition zeroshot_datanames : list string :=
  ["chexpert-5x200"; "mimic-5x200"; "covid-test"; "covid-2x200-test";
   "rsna-balanced-test"; "rsna-2x200-test"].

(** The values of [dataname] the linear-probe script recognizes. *)
Definition probe_datanames : list string :=
  ["chexpert-5x200"; "mimic-5x200"; "covid"; "covid-2x200";
   "rsna-balanced"; "rsna-2x200"].

(** The steps of the zero-shot script that build something for the
    task: the dataset, the collator, the data loader, the prompt
    classifier and the evaluator.  Loading the pretrained MedCLIP model
    and reading the sentence file do not depend on the task. *)
Definition built_for_task (e : ZeroShot.event) : bool :=
  match e with
  | ZeroShot.MedClipModel_built _ _ _ => false
  | ZeroShot.Model_cuda => false
  | ZeroShot.Csv_read _ => false
  | _ => true
  end.

Definition is_evaluate (e : ZeroShot.event) : bool :=
  match e with
  | ZeroShot.Evaluate_called _ => true
  | _ => false
  end.

(** The name of a parameter of the classification head. *)
Definition head_name (name : string) : Prop :=
  name = "fc.weight" \/ name = "fc.bias".

End ScriptSpec.

(** ** Concrete data used to run the definitions *)

Module Examples.
Import Pretrain.

(** Images are named by their path; a plane is named by a number. *)
#[export] Instance toy_externals : Externals := {|
  Image := string;
  Plane := nat;
  Image_open := fun path =>
    if String.eqb path "" then Raise IOError else Ok path;
  encode := fun n text => take n (Z.of_nat <$> seq 1 (String.length text));
  pad_token_id := 0;
|}.

(** Labels given as the list of the nonzero cells. *)
Definition labels_of (cells : list (string * Z)) (l : string) : Z :=
  default 0 (dict_get cells l).

(** The label cells of a meta row, none of them empty. *)
Definition cells_of (cells : list (string * Z)) (l : string) : option Z :=
  Some (labels_of cells l).

Definition sent_clear : sentence_row :=
  {| Reports := "the lungs are clear";
     sent_label := labels_of [("No Finding", 1)] |}.
Definition sent_edema : sentence_row :=
  {| Reports := "mild pulmonary edema";
     sent_label := labels_of [("Edema", 1)] |}.
Definition sent_no_edema : sentence_row :=
  {| Reports := "no pulmonary edema";
     sent_label := labels_of [("Edema", -1)] |}.
Definition sent_plain : sentence_row :=
  {| Reports := "pa and lateral views";
     sent_label := labels_of [] |}.

Definition row_edema : meta_row :=
  {| imgpath := "a.jpg"; report := Some "heart size normal";
     label := cells_of [("Edema", 1)] |}.
Definition row_blank : meta_row :=
  {| imgpath := "b.jpg"; report := None; label := cells_of [] |}.
Definition row_fracture : meta_row :=
  {| imgpath := "c.jpg"; report := Some "rib fracture";
     label := cells_of [("Fracture", 1)] |}.

(** A row whose 'Edema' label is -1. *)
Definition row_no_edema : meta_row :=
  {| imgpath := "d.jpg"; report := Some "clear lungs";
     label := cells_of [("Edema", -1)] |}.

(** A row labelled 'Edema' whose 'Fracture' cell is empty. *)
Definition row_edema_nan : meta_row :=
  {| imgpath := "f.jpg"; report := Some "portable chest";
     label := fun l => if String.eqb l "Fracture" then None
                       else cells_of [("Edema", 1)] l |}.

(** A row labelled 'Fracture' whose 'Edema' cell is empty. *)
Definition row_fracture_nan : meta_row :=
  {| imgpath := "g.jpg"; report := Some "rib series";
     label := fun l => if String.eqb l "Edema" then None
                       else cells_of [("Fracture", 1)] l |}.

(** A one-channel image. *)
Definition toy_transform (img : string) : list nat := [String.length img].

Definition toy_dataset : ImageTextContrastiveDataset :=
  {| df := [row_edema; row_blank; row_fracture; row_no_edema];
     transform := toy_transform;
     sentence_label := [sent_clear; sent_edema; sent_no_edema; sent_plain];
     negative_sent_label := [sent_no_edema] |}.

(** A batch of two items whose images have three channels. *)
Definition rgb_batch : list (tensor * string) :=
  [(unsqueeze1 [1; 2; 3]%nat, "first report");
   (unsqueeze1 [4; 5; 6]%nat, "second report")].

(** A batch of two items whose images have one channel. *)
Definition gray_batch : list (tensor * string) :=
  [(unsqueeze1 [1]%nat, "ab");
   (unsqueeze1 [4]%nat, "abcd")].

(** A model whose loss is the number of its arguments that are given. *)
Definition toy_loss : ImageTextContrastiveLoss nat Z :=
  {| model := fun ids px mask return_loss =>
       if return_loss
       then Ok {[ "loss_value" :=
                    Z.of_nat (length (omap (fun o : option nat => o) [ids; px; mask]));
                  "logits" := 0 ]}
       else Ok {[ "logits" := 0 ]} |}.

(** The toy sentences with two rows that have an empty label cell. *)
Definition nan_dataset : ImageTextContrastiveDataset :=
  {| df := [row_edema_nan; row_fracture_nan];
     transform := toy_transform;
     sentence_label := [sent_clear; sent_edema; sent_no_edema; sent_plain];
     negative_sent_label := [sent_no_edema] |}.

End Examples.

Module ScriptExamples.

(** Prompts: one text per class name. *)
Definition prompts_for (names : list string) : odict (list string) :=
  (fun name => (name, ["findings of " +:+ name])) <$> names.

#[export] Instance toy_zeroshot : ZeroShot.Library := {|
  ZeroShot.Frame := unit;
  ZeroShot.read_csv := fun _ => tt;
  ZeroShot.CHEXPERT_COMPETITION_TASKS :=
    ["Atelectasis"; "Cardiomegaly"; "Consolidation"; "Edema";
     "Pleural Effusion"];
  ZeroShot.COVID_TASKS := ["Normal"; "COVID"];
  ZeroShot.RSNA_TASKS := ["Normal"; "Pneumonia"];
  ZeroShot.generate_class_prompts := fun _ _ task _ => prompts_for task;
  ZeroShot.generate_chexpert_class_prompts := fun _ _ =>
    prompts_for ["Atelectasis"; "Cardiomegaly"; "Consolidation"; "Edema";
                 "Pleural Effusion"];
  ZeroShot.generate_covid_class_prompts := fun _ _ => prompts_for ["COVID"];
  ZeroShot.generate_rsna_class_prompts := fun _ _ =>
    prompts_for ["Pneumonia"];
  ZeroShot.evaluate := fun i _ _ _ _ =>
    {[ "acc" := ZeroShot.Scalar (INR i);
       "pred" := ZeroShot.Array [INR i; 0%R];
       "labels" := ZeroShot.Array [1%R; 0%R] ]};
|}.

(** A classifier with two backbone parameters and the head. *)
#[export] Instance toy_probe : LinearProbe.Library := {|
  LinearProbe.Tensor := Z;
  LinearProbe.CHEXPERT_COMPETITION_TASKS :=
    ["Atelectasis"; "Cardiomegaly"; "Consolidation"; "Edema";
     "Pleural Effusion"];
  LinearProbe.COVID_TASKS := ["Normal"; "COVID"];
  LinearProbe.RSNA_TASKS := ["Normal"; "Pneumonia"];
  LinearProbe.named_parameters := fun _ _ _ _ =>
    [("model.model.conv1.weight",
      {| LinearProbe.data := 10; LinearProbe.requires_grad := true |});
     ("model.model.fc.weight",
      {| LinearProbe.data := 20; LinearProbe.requires_grad := true |});
     ("fc.weight",
      {| LinearProbe.data := 30; LinearProbe.requires_grad := true |});
     ("fc.bias",
      {| LinearProbe.data := 40; LinearProbe.requires_grad := true |})];
  LinearProbe.updates :=
    [fun _ _ x => x + 1; fun _ _ x => 2 * x];
|}.

End ScriptExamples.

(** ** More vocabulary for the properties *)

Module MoreSpec.
Import Pretrain PretrainSpec.

(** The file of the meta frame of one entry of [datalist]. *)
Definition meta_path (data : string) : string :=
  "./local_data/" +:+ data +:+ "-meta.csv".

(** The sentence file has the column 'Reports' and the 14 label
    columns, and every cell of 'Reports' holds a text. *)
Definition well_formed (raw : csv_sentence_frame) : Prop :=
  (forall c, In c ("Reports" :: _labels_) -> In c (csv_columns raw)) /\
  (forall r, In r (csv_rows raw) -> is_Some (csv_Reports r)).

(** [s] is the first row of [frame] with its report. *)
Definition first_with_report (frame : list sentence_row) (s : sentence_row)
  : Prop :=
  exists i, frame !! i = Some s /\
    forall j s', (j < i)%nat -> frame !! j = Some s' ->
      Reports s' <> Reports s.

(** The frame [__getitem__] samples from for a row. *)
Definition sampled_frame `{Externals} (self : ImageTextContrastiveDataset)
    (row : meta_row) : list sentence_row :=
  if all_zero (label row <$> _labels_)
  then List.filter (fun s => 0 <? sent_label s "No Finding")
                   (sentence_label self)
  else match sents self row with
       | [] => fallback self row
       | _ :: _ => sents self row
       end.

(** The width of the token matrices of a batch: the longest encoding
    of its reports. *)
Definition batch_width `{Externals} (batch : list (tensor * string)) : nat :=
  max_list (length <$> (encode model_max_length <$> batch.*2)).

(** The two labels are nonzero and of the same sign. *)
Definition same_sign (a b : Z) : Prop :=
  (0 < a /\ 0 < b) \/ (a < 0 /\ b < 0).

(** A label of the CheXpert kind: -1, 0 or 1. *)
Definition ternary (a : Z) : Prop := a = -1 \/ a = 0 \/ a = 1.

End MoreSpec.

Module MoreExamples.
Import Pretrain Examples.

Definition toy_read_meta (path : string) : result (list meta_row) :=
  if String.eqb path "./local_data/chexpert-meta.csv"
  then Ok [row_edema; row_blank]
  else if String.eqb path "./local_data/mimic-cxr-meta.csv"
  then Ok [row_fracture]
  else if String.eqb path "./local_data/iuxray-meta.csv"
  then Ok [row_no_edema]
  else Raise IOError.

Definition csv_row (text : string) (cells : list (string * Z))
  : csv_sentence_row :=
  {| csv_Reports := Some text; csv_label := dict_get cells |}.

Definition toy_sentence_frame : csv_sentence_frame :=
  {| csv_columns := "Reports" :: _labels_;
     csv_rows := [csv_row "the lungs are clear" [("No Finding", 1)];
                  csv_row "no" [];
                  csv_row "mild pulmonary edema" [("Edema", 1)];
                  csv_row "the lungs are clear" [("Edema", -1)];
                  csv_row "no pulmonary edema" [("Edema", -1)]] |}.

Definition toy_read_sentence (path : string) : result csv_sentence_frame :=
  if String.eqb path "./local_data/iuxray-sentence-label.csv"
  then Ok toy_sentence_frame
  else Raise IOError.

(** A sentence file with an empty 'Reports' cell. *)
Definition gap_read_sentence (path : string) : result csv_sentence_frame :=
  Ok {| csv_columns := "Reports" :: _labels_;
        csv_rows := [csv_row "the lungs are clear" [("No Finding", 1)];
                     {| csv_Reports := None; csv_label := fun _ => None |}] |}.

Definition kept_clear : sentence_row :=
  fillna (csv_row "the lungs are clear" [("No Finding", 1)]).
Definition kept_edema : sentence_row :=
  fillna (csv_row "mild pulmonary edema" [("Edema", 1)]).
Definition kept_no_edema : sentence_row :=
  fillna (csv_row "no pulmonary edema" [("Edema", -1)]).

(** The dataset [__init__] builds from the toy files. *)
Definition toy_built : ImageTextContrastiveDataset :=
  {| df := [row_edema; row_blank; row_fracture; row_no_edema];
     transform := toy_transform;
     sentence_label := [kept_clear; kept_edema; kept_no_edema];
     negative_sent_label := [kept_no_edema] |}.

(** A database without any 'No Finding' sentence. *)
Definition bare_dataset : ImageTextContrastiveDataset :=
  {| df := [row_edema; row_blank];
     transform := toy_transform;
     sentence_label := [sent_edema; sent_no_edema; sent_plain];
     negative_sent_label := [sent_no_edema] |}.

(** A row labelled 'No Finding' only. *)
Definition row_normal : meta_row :=
  {| imgpath := "e.jpg"; report := Some "normal chest";
     label := cells_of [("No Finding", 1)] |}.

Definition normal_dataset : ImageTextContrastiveDataset :=
  {| df := [row_normal];
     transform := toy_transform;
     sentence_label := [sent_clear; sent_edema; sent_no_edema; sent_plain];
     negative_sent_label := [sent_no_edema] |}.

(** Two items that [__getitem__] returns on the toy dataset. *)
Definition fetched_batch : list (tensor * string) :=
  [([[5%nat]], "heart size normal mild pulmonary edema");
   ([[5%nat]], " the lungs are clear")].

End MoreExamples.

Module MoreScriptSpec.

(** What one run of the zero-shot script builds and calls, in order. *)
Definition run_events (mode : string) (i : nat) : list ZeroShot.event :=
  [ZeroShot.ZeroShotImageCollator_built mode;
   ZeroShot.DataLoader_built 128;
   ZeroShot.MedClipPromptClassifier_built true;
   ZeroShot.Evaluator_built mode;
   ZeroShot.Evaluate_called i].

(** The mode of the collator and of the evaluator for a dataset. *)
Definition mode_of (dataname : string) : string :=
  if str_in dataname ["chexpert-5x200"; "mimic-5x200"]
  then "multiclass" else "binary".

(** What the zero-shot script does before its runs. *)
Definition startup_events (dataname : string) (tasks : list string)
  : list ZeroShot.event :=
  [ZeroShot.MedClipModel_built "MedClipVisionModelViT" true
     "/srv/local/data/MedCLIP/checkpoints/vision_text_pretrain/25000/";
   ZeroShot.Model_cuda;
   ZeroShot.ZeroShotImageDataset_built [dataname] tasks;
   ZeroShot.Csv_read "./local_data/sentence-label.csv"].

(** A library whose prompts never pass the check of the covid runs
    after run 1. *)
Definition flaky_zeroshot : ZeroShot.Library := {|
  ZeroShot.Frame := unit;
  ZeroShot.read_csv := fun _ => tt;
  ZeroShot.CHEXPERT_COMPETITION_TASKS := ["Atelectasis"; "Edema"];
  ZeroShot.COVID_TASKS := ["Normal"; "COVID"];
  ZeroShot.RSNA_TASKS := ["Normal"; "Pneumonia"];
  ZeroShot.generate_class_prompts := fun _ _ task _ =>
    ScriptExamples.prompts_for task;
  ZeroShot.generate_chexpert_class_prompts := fun _ _ =>
    ScriptExamples.prompts_for ["Atelectasis"; "Edema"];
  ZeroShot.generate_covid_class_prompts := fun i _ =>
    if (i <? 2)%nat then ScriptExamples.prompts_for ["COVID"]
    else ScriptExamples.prompts_for ["Covid19"];
  ZeroShot.generate_rsna_class_prompts := fun _ _ =>
    ScriptExamples.prompts_for ["No Finding"];
  ZeroShot.evaluate := fun i _ _ _ _ =>
    {[ "acc" := ZeroShot.Scalar (INR i) ]};
|}.

End MoreScriptSpec.

(** * Properties *)

Lemma bind_Ok {A B} (a : A) (f : A -> result B) : Ok a ≫= f = f a.
Proof. reflexivity. Qed.

Lemma bind_Raise {A B} (e : exn) (f : A -> result B) : Raise e ≫= f = Raise e.
Proof. reflexivity. Qed.

Section SampleFacts.
Context {A : Type}.

Lemma sample_Ok_In (frame : list A) (rnd : nat) (a : A) :
  sample frame rnd = Ok a -> In a frame.
Proof.
  destruct frame as [|x frame]; [discriminate|].
  unfold sample. destruct (_ !! _) as [b|] eqn:E; [|discriminate].
  intros [= <-]. apply list_elem_of_In. eapply list_elem_of_lookup_2, E.
Qed.

Lemma sample_total (frame : list A) (rnd : nat) :
  frame <> [] -> exists a, sample frame rnd = Ok a /\ In a frame.
Proof.
  intros Hne. destruct frame as [|x frame]; [done|].
  unfold sample.
  destruct (lookup_lt_is_Some_2 (x :: frame) (rnd mod length (x :: frame))%nat)
    as [b Hb].
  { apply Nat.mod_upper_bound. simpl. lia. }
  rewrite Hb. exists b. split; [done|].
  apply list_elem_of_In. eapply list_elem_of_lookup_2, Hb.
Qed.

Lemma sample_reaches (frame : list A) (a : A) :
  In a frame -> exists rnd, sample frame rnd = Ok a.
Proof.
  intros Hin. apply list_elem_of_In, list_elem_of_lookup in Hin as [i Hi].
  exists i. pose proof (lookup_lt_Some _ _ _ Hi) as Hlt.
  destruct frame as [|x frame]; [simpl in Hlt; lia|].
  unfold sample. rewrite Nat.mod_small by exact Hlt. by rewrite Hi.
Qed.

End SampleFacts.

(** ** The prompt sampling of [ImageTextContrastiveDataset.__getitem__] *)

Section GetItem.
Import Pretrain PretrainSpec.
Context `{Externals}.

Lemma is_zero_true (c : option Z) : is_zero c = true <-> c = Some 0.
Proof.
  destruct c as [z|]; simpl; [|split; discriminate].
  rewrite Z.eqb_eq. split; [by intros -> | by intros [= ->]].
Qed.

(** The test of one cell of [bool_sent_label]: the cell differs from 0
    when the row's cell is empty, or when the product is positive. *)
Lemma cell_test (a : Z) (c : option Z) :
  is_zero (zero_negative (times a c)) = false
  <-> c = None \/ exists z, c = Some z /\ 0 < a * z.
Proof.
  destruct c as [z|]; [|split; [by left | done]].
  unfold times, zero_negative. simpl.
  destruct (Z.ltb_spec (a * z) 0); simpl.
  - split; [discriminate|]. intros [[=] | (z' & [= <-] & Hp)]. lia.
  - rewrite Z.eqb_neq. split.
    + intros Hne. right. exists z. split; [done|lia].
    + intros [[=] | (z' & [= <-] & Hp)]. lia.
Qed.

Lemma forallb_false {X} (p : X -> bool) (l : list X) :
  negb (forallb p l) = true <-> exists x, In x l /\ p x = false.
Proof.
  induction l as [|c l IH]; simpl.
  - split; [discriminate|]. intros (x & [] & _).
  - rewrite negb_andb, orb_true_iff, IH, negb_true_iff. split.
    + intros [Hc | (x & Hx & Hp)]; [exists c | exists x]; auto.
    + intros (x & [<- | Hx] & Hp); [by left|]. right. by exists x.
Qed.

Lemma all_zero_false (f : string -> option Z) (cols : list string) :
  negb (all_zero (f <$> cols)) = true
  <-> exists l, In l cols /\ is_zero (f l) = false.
Proof.
  unfold all_zero. rewrite forallb_false. split.
  - intros (x & (l & <- & Hl)%in_map_iff & Hx). by exists l.
  - intros (l & Hl & Hne). exists (f l). split; [by apply in_map|done].
Qed.

Lemma all_zero_true (f : string -> option Z) (cols : list string) :
  all_zero (f <$> cols) = true <-> forall l, In l cols -> f l = Some 0.
Proof.
  unfold all_zero. rewrite forallb_forall. split.
  - intros Hall l Hl. apply is_zero_true, Hall, in_map, Hl.
  - intros Hall x (l & <- & Hl)%in_map_iff. apply is_zero_true. auto.
Qed.

Lemma row_test_labelled (row : meta_row) :
  has_label row -> all_zero (label row <$> _labels_) = false.
Proof.
  intros (l & z & Hl & Hz & Hne). apply negb_true_iff, all_zero_false.
  exists l. split; [done|]. rewrite Hz. simpl. by apply Z.eqb_neq.
Qed.

Lemma row_test_empty_cell (row : meta_row) (l : string) :
  In l _labels_ -> label row l = None ->
  all_zero (label row <$> _labels_) = false.
Proof.
  intros Hl Hz. apply negb_true_iff, all_zero_false.
  exists l. split; [done|]. by rewrite Hz.
Qed.

Lemma row_test_unlabelled (row : meta_row) :
  no_label row -> all_zero (label row <$> _labels_) = true.
Proof. intros Hl. by apply all_zero_true. Qed.

(** The test of a sentence on the columns [cols]: it passes when the
    sentence has a positive product there, or when one of the row's
    cells there is empty. *)
Lemma cols_test (cols : list string) (row : meta_row) (s : sentence_row) :
  negb (all_zero
          ((fun l => zero_negative (times (sent_label s l) (label row l)))
             <$> cols)) = true
  <-> matches_on cols row s \/ exists l, In l cols /\ label row l = None.
Proof.
  rewrite all_zero_false. unfold matches_on, positive_product. split.
  - intros (l & Hl & [Hz | Hp]%cell_test); [right | left]; by exists l.
  - intros [(l & Hl & Hp) | (l & Hl & Hz)]; exists l; split; try done;
      apply cell_test; [by right | by left].
Qed.

Lemma pathology_is_label (l : string) :
  In l pathology_labels -> In l _labels_.
Proof. intros Hl. by right. Qed.

Lemma any_label_test (row : meta_row) (s : sentence_row) :
  all_present row ->
  negb (all_zero (bool_sent_label row s)) = true <-> matches_on _labels_ row s.
Proof.
  intros Hp. unfold bool_sent_label. rewrite cols_test. split; [|by left].
  intros [Hm | (l & Hl & Hz)]; [done|].
  destruct (Hp l Hl) as [z Hz']. congruence.
Qed.

Lemma pathology_cells (row : meta_row) (s : sentence_row) :
  drop 1 (bool_sent_label row s)
  = (fun l => zero_negative (times (sent_label s l) (label row l)))
      <$> pathology_labels.
Proof. reflexivity. Qed.

Lemma pathology_test (row : meta_row) (s : sentence_row) :
  all_present row ->
  negb (all_zero (drop 1 (bool_sent_label row s))) = true
  <-> matches_on pathology_labels row s.
Proof.
  intros Hp. rewrite pathology_cells, cols_test. split; [|by left].
  intros [Hm | (l & Hl & Hz)]; [done|].
  destruct (Hp l (pathology_is_label l Hl)) as [z Hz']. congruence.
Qed.

Lemma In_sents self row (Hp : all_present row) s :
  In s (sents self row)
  <-> In s (sentence_label self) /\ matches_on pathology_labels row s.
Proof. unfold sents. by rewrite filter_In, (pathology_test row s Hp). Qed.

Lemma In_fallback self row (Hp : all_present row) s :
  In s (fallback self row)
  <-> In s (sentence_label self) /\ matches_on _labels_ row s.
Proof. unfold fallback. by rewrite filter_In, (any_label_test row s Hp). Qed.

(** With an empty pathology cell in the row, [sents] is the whole
    database. *)
Lemma sents_empty_cell self row l :
  In l pathology_labels -> label row l = None ->
  sents self row = sentence_label self.
Proof.
  intros Hl Hz. unfold sents. apply forallb_filter_id, forallb_forall.
  intros s _. rewrite pathology_cells. apply cols_test. right. by exists l.
Qed.

(** With an empty cell in the row, the frame of the fallback is the
    whole database. *)
Lemma fallback_empty_cell self row l :
  In l _labels_ -> label row l = None ->
  fallback self row = sentence_label self.
Proof.
  intros Hl Hz. unfold fallback. apply forallb_filter_id, forallb_forall.
  intros s _. unfold bool_sent_label. apply cols_test. right. by exists l.
Qed.

Lemma getitem_else self index rnd row img :
  index_of (df self) index = Ok row ->
  Image_open (imgpath row) = Ok img ->
  all_zero (label row <$> _labels_) = false ->
  getitem self index rnd =
    (s ← sample (match sents self row with
                 | [] => fallback self row
                 | _ :: _ => sents self row
                 end) rnd;
     Ok (unsqueeze1 (transform self img), appended row s)).
Proof.
  intros Hrow Himg Hl. unfold getitem.
  rewrite Hrow, bind_Ok, Himg, bind_Ok, Hl.
  destruct (sents self row) as [|s0 ss]; reflexivity.
Qed.

Lemma getitem_labelled self index rnd row img :
  index_of (df self) index = Ok row ->
  Image_open (imgpath row) = Ok img ->
  has_label row ->
  getitem self index rnd =
    (s ← sample (match sents self row with
                 | [] => fallback self row
                 | _ :: _ => sents self row
                 end) rnd;
     Ok (unsqueeze1 (transform self img), appended row s)).
Proof.
  intros Hrow Himg Hl.
  apply getitem_else; [done | done | by apply row_test_labelled].
Qed.

Lemma getitem_unlabelled self index rnd row img :
  index_of (df self) index = Ok row ->
  Image_open (imgpath row) = Ok img ->
  no_label row ->
  getitem self index rnd =
    (s ← sample (List.filter (fun s => 0 <? sent_label s "No Finding")
                             (sentence_label self)) rnd;
     Ok (unsqueeze1 (transform self img), appended row s)).
Proof.
  intros Hrow Himg Hl. unfold getitem.
  by rewrite Hrow, bind_Ok, Himg, bind_Ok, (row_test_unlabelled row Hl).
Qed.

Lemma drawn_from_sample {B} (frame : list sentence_row)
    (P : sentence_row -> Prop) (out : sentence_row -> B) :
  (forall s, In s frame <-> P s) ->
  drawn_exactly_from (fun rnd => s ← sample frame rnd; Ok (out s)) P out.
Proof.
  intros Hframe. split.
  - intros rnd b. destruct (sample frame rnd) as [s|e] eqn:E; simpl; [|done].
    intros [= <-]. exists s. split; [|done]. by apply Hframe, (sample_Ok_In _ rnd).
  - intros s Hs. apply Hframe, sample_reaches in Hs as [rnd Hrnd].
    exists rnd. by rewrite Hrnd.
Qed.

Lemma no_match_no_frame (frame : list sentence_row) (P : sentence_row -> Prop) :
  (forall s, In s frame <-> P s) -> ~ (exists s, P s) -> frame = [].
Proof.
  intros Hframe Hnone. destruct frame as [|s frame]; [done|].
  destruct Hnone. exists s. apply Hframe. by left.
Qed.

Lemma match_frame (frame : list sentence_row) (P : sentence_row -> Prop) :
  (forall s, In s frame <-> P s) -> (exists s, P s) -> frame <> [].
Proof. intros Hframe [s Hs%Hframe] ->. destruct Hs. Qed.

Lemma sample_bind_returns {B} (frame : list sentence_row) (rnd : nat)
    (out : sentence_row -> B) :
  frame <> [] -> returns (s ← sample frame rnd; Ok (out s)).
Proof.
  intros Hne. destruct (sample_total frame rnd Hne) as (s & Hs & _).
  exists (out s). by rewrite Hs.
Qed.


(** C2. For a row whose 14 structured labels are all zero (whose image
    opens), the possible results of [__getitem__] are exactly the image
    with the row's report (the empty string when the report is missing)
    followed by a space and a sentence of the database whose
    'No Finding' label is positive; the call returns for every draw
    once there is such a sentence. *)
Theorem getitem_unlabelled_row_sampling
    (self : ImageTextContrastiveDataset) (index : Z) (row : meta_row)
    (img : Image) :
  index_of (df self) index = Ok row ->
  Image_open (imgpath row) = Ok img ->
  no_label row ->
  let out s := (unsqueeze1 (transform self img), appended row s) in
  let pool s :=
    In s (sentence_label self) /\ 0 < sent_label s "No Finding" in
  drawn_exactly_from (getitem self index) pool out /\
  ((exists s, pool s) -> forall rnd, returns (getitem self index rnd)) /\
  (report row = None -> forall s, appended row s = " " +:+ Reports s).
Proof.
  intros Hrow Himg Hl out pool.
  pose proof (fun rnd => getitem_unlabelled self index rnd row img Hrow Himg Hl)
    as Heq.
  set (frame := List.filter (fun s => 0 <? sent_label s "No Finding")
                            (sentence_label self)) in *.
  assert (Hframe : forall s, In s frame <-> pool s).
  { intros s. unfold frame, pool. by rewrite filter_In, Z.ltb_lt. }
  destruct (drawn_from_sample frame pool out Hframe) as [Hsound Hreach].
  repeat split.
  - intros rnd b. rewrite Heq. apply Hsound.
  - intros s Hs. destruct (Hreach s Hs) as [rnd Hrnd]. exists rnd.
    by rewrite Heq.
  - intros Hsome rnd. rewrite Heq. apply sample_bind_returns.
    exact (match_frame _ _ Hframe Hsome).
  - intros Hnone s. unfold appended. by rewrite Hnone.
Qed.

(** C10. For a row with some nonzero structured label and no empty
    label cell, [__getitem__] can return only if some sentence of the
    database has a positive product with the row on one of the 14
    labels.  If there is none, [sents] is empty, the frame of the
    fallback is empty too, and the call raises for every draw: the
    [ValueError] of [sample()] on the empty frame once the image has
    opened. *)
Theorem getitem_needs_matching_sentence
    (self : ImageTextContrastiveDataset) (index : Z) (row : meta_row) :
  index_of (df self) index = Ok row ->
  has_label row ->
  all_present row ->
  let matching s :=
    In s (sentence_label self) /\ matches_on _labels_ row s in
  ((exists rnd, returns (getitem self index rnd)) -> exists s, matching s) /\
  (~ (exists s, matching s) ->
     sents self row = [] /\ fallback self row = [] /\
     forall rnd,
       raises (getitem self index rnd) /\
       (forall img, Image_open (imgpath row) = Ok img ->
          getitem self index rnd = Raise ValueError)).
Proof.
  intros Hrow Hl Hp matching.
  assert (Hsub : forall s, In s (sents self row) -> In s (fallback self row)).
  { intros s Hs. apply (In_sents self row Hp) in Hs as (Hs & l & Hin & Hpos).
    apply (In_fallback self row Hp). split; [done|].
    exists l. split; [|done]. by right. }
  assert (Hempty : fallback self row = [] ->
            sents self row = [] /\
            forall rnd,
              raises (getitem self index rnd) /\
              (forall img, Image_open (imgpath row) = Ok img ->
                 getitem self index rnd = Raise ValueError)).
  { intros Hnil.
    assert (Hs : sents self row = []).
    { destruct (sents self row) as [|s ss] eqn:E; [done|].
      specialize (Hsub s (or_introl eq_refl)). rewrite Hnil in Hsub.
      destruct Hsub. }
    split; [done|]. intros rnd.
    assert (Hval : forall img, Image_open (imgpath row) = Ok img ->
              getitem self index rnd = Raise ValueError).
    { intros img Himg.
      by rewrite (getitem_labelled self index rnd row img Hrow Himg Hl), Hs, Hnil. }
    split; [|done].
    destruct (Image_open (imgpath row)) as [img|e] eqn:Himg.
    - exists ValueError. by apply (Hval img).
    - exists e. unfold getitem. by rewrite Hrow, bind_Ok, Himg. }
  split.
  - intros [rnd [r Hr]].
    destruct (fallback self row) as [|s ss] eqn:E.
    + destruct (Hempty eq_refl) as (_ & Hraise).
      destruct (Hraise rnd) as ([e He] & _). congruence.
    + exists s. apply (In_fallback self row Hp). rewrite E. by left.
  - intros Hnone.
    pose proof (no_match_no_frame _ _ (In_fallback self row Hp) Hnone) as Hnil.
    destruct (Hempty Hnil) as [Hs Hraise]. done.
Qed.

End GetItem.

(** Runs of [__getitem__] on the toy dataset. *)

Example getitem_edema :
  Pretrain.getitem Examples.toy_dataset 0 5
  = Ok ([[5%nat]], "heart size normal mild pulmonary edema").
Proof. reflexivity. Qed.

Example getitem_no_edema :
  Pretrain.getitem Examples.toy_dataset 3 0
  = Ok ([[5%nat]], "clear lungs no pulmonary edema").
Proof. reflexivity. Qed.

Example getitem_blank :
  Pretrain.getitem Examples.toy_dataset 1 0
  = Ok ([[5%nat]], " the lungs are clear").
Proof. reflexivity. Qed.

Example getitem_from_the_end :
  Pretrain.getitem Examples.toy_dataset (-4) 0
  = Pretrain.getitem Examples.toy_dataset 0 0.
Proof. reflexivity. Qed.

Example getitem_out_of_range :
  Pretrain.getitem Examples.toy_dataset 4 0 = Raise IndexError.
Proof. reflexivity. Qed.

Lemma cells_of_present (cells : list (string * Z)) (row : Pretrain.meta_row) :
  Pretrain.label row = Examples.cells_of cells -> PretrainSpec.all_present row.
Proof. intros Hrow l _. rewrite Hrow. by eexists. Qed.



Lemma getitem_unlabelled_row_sampling_witness :
  PretrainSpec.no_label Examples.row_blank /\
  returns (Pretrain.getitem Examples.toy_dataset 1 3).
Proof.
  assert (Hl : PretrainSpec.no_label Examples.row_blank).
  { intros l _. reflexivity. }
  split; [exact Hl|].
  destruct (getitem_unlabelled_row_sampling Examples.toy_dataset 1
              Examples.row_blank "b.jpg" eq_refl eq_refl Hl)
    as (_ & Htotal & _).
  apply Htotal. exists Examples.sent_clear. split; [simpl; tauto|].
  vm_compute. reflexivity.
Defined.

Lemma getitem_needs_matching_sentence_witness :
  PretrainSpec.has_label Examples.row_fracture /\
  PretrainSpec.all_present Examples.row_fracture /\
  Pretrain.getitem Examples.toy_dataset 2 3 = Raise ValueError.
Proof.
  assert (Hl : PretrainSpec.has_label Examples.row_fracture).
  { exists "Fracture", 1. split; [simpl; tauto | split; [reflexivity | lia]]. }
  assert (Hp : PretrainSpec.all_present Examples.row_fracture).
  { by apply (cells_of_present [("Fracture", 1)]). }
  destruct (getitem_needs_matching_sentence Examples.toy_dataset 2
              Examples.row_fracture eq_refl Hl Hp) as [_ Hnone].
  split; [exact Hl|]. split; [exact Hp|].
  destruct Hnone as (_ & _ & Hraise).
  - intros (s & Hs & l & Hin & z & Hz & Hpos). revert Hz Hpos.
    simpl in Hs, Hin.
    destruct Hs as [<- | [<- | [<- | [<- | []]]]];
      repeat (destruct Hin as [<- | Hin];
              [intros [= <-]; vm_compute; discriminate|]);
      destruct Hin.
  - destruct (Hraise 3%nat) as [_ Hval]. by apply (Hval "c.jpg").
Defined.

(** C10, the case the statement leaves out.  The row of the example is
    labelled 'Fracture' and its 'Edema' cell is empty; no sentence of
    the database has a positive product with it on any of the 14 labels.
    Yet [sents] is the whole database and the call returns. *)
Lemma getitem_needs_matching_sentence_counterexample :
  index_of (Pretrain.df Examples.nan_dataset) 1
    = Ok Examples.row_fracture_nan /\
  PretrainSpec.has_label Examples.row_fracture_nan /\
  ~ (exists s, In s (Pretrain.sentence_label Examples.nan_dataset) /\
       PretrainSpec.matches_on Pretrain._labels_ Examples.row_fracture_nan s) /\
  Pretrain.sents Examples.nan_dataset Examples.row_fracture_nan
    = Pretrain.sentence_label Examples.nan_dataset /\
  Pretrain.getitem Examples.nan_dataset 1 0
    = Ok ([[5%nat]], "rib series the lungs are clear").
Proof.
  split; [reflexivity|]. split.
  { exists "Fracture", 1. split; [simpl; tauto | split; [reflexivity | lia]]. }
  split; [|split; reflexivity].
  intros (s & Hs & l & Hin & z & Hz & Hpos). revert Hz Hpos.
  simpl in Hs, Hin.
  destruct Hs as [<- | [<- | [<- | [<- | []]]]];
    repeat (destruct Hin as [<- | Hin];
            [vm_compute; try discriminate; intros [= <-]; discriminate|]);
    destruct Hin.
Qed.


(** ** [collate_fn] *)

Section Collate.
Import Pretrain PretrainSpec.
Context `{Externals}.

Lemma collate_loop (data : tensor * string) (batch : list (tensor * string))
    (inputs : gmap string batch_value) (report_list : list string) :
  fold_left collate_step (data :: batch) (inputs, report_list)
  = (<["pixel_values" :=
         TensorList (tensor_list (inputs !! "pixel_values")
                     ++ (data :: batch).*1)]> inputs,
     report_list ++ (data :: batch).*2).
Proof.
  revert data inputs report_list.
  induction batch as [|data' batch IH]; intros data inputs report_list.
  - reflexivity.
  - change (fold_left collate_step (data :: data' :: batch) (inputs, report_list))
      with (fold_left collate_step (data' :: batch)
              (collate_step (inputs, report_list) data)).
    unfold collate_step at 2. rewrite IH.
    rewrite lookup_insert_eq, insert_insert_eq. cbn [tensor_list].
    f_equal.
    + by rewrite <- app_assoc.
    + by rewrite <- app_assoc.
Qed.

(** The value of [collate_fn] on a batch that is not empty. *)
Lemma collate_fn_value (batch : list (tensor * string)) :
  batch <> [] ->
  collate_fn batch
  = Ok (<["attention_mask" :=
            TokenMatrix (attention_mask (encode_batch batch.*2))]>
        (<["input_ids" := TokenMatrix (input_ids (encode_batch batch.*2))]>
         (<["pixel_values" := Pixels (concat batch.*1)]> ∅))).
Proof.
  intros Hne. destruct batch as [|data batch]; [done|].
  unfold collate_fn. rewrite collate_loop.
  rewrite lookup_insert_eq, lookup_empty. cbn [tensor_list app].
  change (tokenizer ((data :: batch).*2))
    with (Ok (encode_batch ((data :: batch).*2))).
  rewrite bind_Ok.
  change (torch_cat ((data :: batch).*1)) with (Ok (concat (data :: batch).*1)).
  rewrite bind_Ok. by rewrite insert_insert_eq.
Qed.

(** On the empty batch the tokenizer call fails, before [torch.cat]. *)
Lemma collate_fn_empty : collate_fn [] = Raise IndexError.
Proof. reflexivity. Qed.

Lemma concat_rows {X} (ts : list (list X)) :
  (forall t, In t ts -> length t = 1%nat) ->
  length (concat ts) = length ts /\
  forall i t, ts !! i = Some t ->
    exists row, concat ts !! i = Some row /\ t = [row].
Proof.
  induction ts as [|t0 ts IH]; intros Hone.
  - split; [done|]. intros i t Hi. by rewrite lookup_nil in Hi.
  - destruct IH as [Hlen Hrows]. { intros t Ht. apply Hone. by right. }
    pose proof (Hone t0 (or_introl eq_refl)) as H0.
    destruct t0 as [|row [|]]; try discriminate. simpl. split; [by rewrite Hlen|].
    intros [|i] t Hi; simpl in *.
    + injection Hi as <-. by exists row.
    + by apply Hrows.
Qed.

Lemma tokenizer_rows (batch : list (tensor * string)) :
  rows_are_reports batch (input_ids (encode_batch batch.*2))
                         (attention_mask (encode_batch batch.*2)).
Proof.
  unfold rows_are_reports, encode_batch. cbn [input_ids attention_mask].
  assert (Hw : length <$> (encode model_max_length <$> batch.*2)
               = (fun data : tensor * string =>
                    length (encode model_max_length data.2)) <$> batch).
  { by rewrite <- !list_fmap_compose. }
  rewrite Hw. rewrite !length_fmap.
  split; [done|]. split; [done|].
  intros j data Hj.
  by rewrite !list_lookup_fmap, Hj.
Qed.

(** C6. For every batch that is not empty, [collate_fn]
    returns a mapping with exactly the keys 'pixel_values', 'input_ids'
    and 'attention_mask'; 'pixel_values' is the image tensors of the
    items joined along the first dimension in batch order; row i of
    'input_ids' and 'attention_mask' is the tokenization of the report of
    item i; and when the image tensor of every item has first dimension
    1, row i of 'pixel_values' is the image tensor of item i. *)
Theorem collate_fn_keeps_pairing (batch : list (tensor * string)) :
  batch <> [] ->
  exists inputs pixel_values ids mask,
    collate_fn batch = Ok inputs /\
    dom inputs = {[ "pixel_values"; "input_ids"; "attention_mask" ]} /\
    inputs !! "pixel_values" = Some (Pixels pixel_values) /\
    inputs !! "input_ids" = Some (TokenMatrix ids) /\
    inputs !! "attention_mask" = Some (TokenMatrix mask) /\
    pixel_values = concat batch.*1 /\
    rows_are_reports batch ids mask /\
    ((forall data, In data batch -> length data.1 = 1%nat) ->
       rows_are_items batch pixel_values).
Proof.
  intros Hne.
  eexists _, (concat batch.*1), _, _.
  split; [by apply collate_fn_value|].
  split. { rewrite !dom_insert_L, dom_empty_L. set_solver. }
  split. { rewrite !lookup_insert_ne by done. apply lookup_insert_eq. }
  split. { rewrite lookup_insert_ne by done. apply lookup_insert_eq. }
  split. { apply lookup_insert_eq. }
  split; [done|]. split; [apply tokenizer_rows|].
  intros Hone.
  destruct (concat_rows batch.*1) as [Hlen Hrows].
  { intros t (data & <- & Hd)%in_map_iff. by apply Hone. }
  split. { by rewrite Hlen, length_fmap. }
  intros i data Hi. apply (Hrows i data.1).
  apply list_lookup_fmap_Some. by exists data.
Qed.

End Collate.

(** Runs of [collate_fn] on the toy batches. *)

Example collate_fn_gray_input_ids :
  (inputs ← Pretrain.collate_fn Examples.gray_batch;
   Pretrain.getitem_str inputs "input_ids")
  = Ok (Pretrain.TokenMatrix [[1; 2; 0; 0]; [1; 2; 3; 4]]).
Proof. vm_compute. reflexivity. Qed.

Example collate_fn_gray_attention_mask :
  (inputs ← Pretrain.collate_fn Examples.gray_batch;
   Pretrain.getitem_str inputs "attention_mask")
  = Ok (Pretrain.TokenMatrix [[1; 1; 0; 0]; [1; 1; 1; 1]]).
Proof. vm_compute. reflexivity. Qed.

Example collate_fn_gray_pixel_values :
  (inputs ← Pretrain.collate_fn Examples.gray_batch;
   Pretrain.getitem_str inputs "pixel_values")
  = Ok (Pretrain.Pixels (H := Examples.toy_externals) [[1%nat]; [4%nat]]).
Proof. vm_compute. reflexivity. Qed.

Example collate_fn_rgb_pixel_values :
  (inputs ← Pretrain.collate_fn Examples.rgb_batch;
   Pretrain.getitem_str inputs "pixel_values")
  = Ok (Pretrain.Pixels (H := Examples.toy_externals)
          [[1%nat]; [2%nat]; [3%nat]; [4%nat]; [5%nat]; [6%nat]]).
Proof. vm_compute. reflexivity. Qed.

Lemma collate_fn_keeps_pairing_witness :
  exists inputs pixel_values,
    Pretrain.collate_fn Examples.gray_batch = Ok inputs /\
    inputs !! "pixel_values" = Some (Pretrain.Pixels pixel_values) /\
    PretrainSpec.rows_are_items Examples.gray_batch pixel_values.
Proof.
  destruct (collate_fn_keeps_pairing Examples.gray_batch)
    as (inputs & pixel_values & ids & mask & Hret & _ & Hpix & _ & _ & _ & _
        & Hrows).
  { discriminate. }
  exists inputs, pixel_values. split; [done|]. split; [done|].
  apply Hrows. intros data [<- | [<- | []]]; reflexivity.
Defined.

(** C6 without the condition on the first dimension does not hold: on a
    batch whose images have three channels, row 1 of 'pixel_values' is
    the second channel of item 0, not the image of item 1. *)
Lemma collate_fn_pairing_counterexample :
  exists inputs pixel_values,
    Examples.rgb_batch <> [] /\
    Pretrain.collate_fn Examples.rgb_batch = Ok inputs /\
    inputs !! "pixel_values" = Some (Pretrain.Pixels pixel_values) /\
    pixel_values !! 1%nat = Some [2%nat] /\
    Examples.rgb_batch !! 1%nat
    = Some ([[4%nat]; [5%nat]; [6%nat]], "second report") /\
    ~ PretrainSpec.rows_are_items Examples.rgb_batch pixel_values.
Proof.
  eexists _, _. split; [discriminate|].
  split; [apply collate_fn_value; discriminate|].
  split. { rewrite !lookup_insert_ne by done. apply lookup_insert_eq. }
  split; [reflexivity|]. split; [reflexivity|].
  intros [_ Hrows].
  destruct (Hrows 1%nat _ eq_refl) as (row & Hrow & Hitem).
  discriminate Hitem.
Qed.

(** ** [ImageTextContrastiveLoss.forward] *)

Section Loss.
Import Pretrain.
Context {T V : Type}.

(** C7. [forward] calls the wrapped model once, with the same
    [input_ids], [pixel_values] and [attention_mask] and
    [return_loss=True]; when that call returns outputs with a
    'loss_value' entry, [forward] returns the dictionary whose single
    key 'loss_value' holds that very entry, and [forward] returns
    nothing else (it raises what the model raises, or [KeyError] for a
    missing entry).  The extra keyword arguments do not matter. *)
Theorem forward_returns_model_loss (self : ImageTextContrastiveLoss T V)
    (input_ids pixel_values attention_mask : option T)
    (kwargs : gmap string T) :
  (forall outputs loss_value,
     model self input_ids pixel_values attention_mask true = Ok outputs ->
     outputs !! "loss_value" = Some loss_value ->
     forward self input_ids pixel_values attention_mask kwargs
     = Ok {[ "loss_value" := loss_value ]}) /\
  (forall return_res,
     forward self input_ids pixel_values attention_mask kwargs = Ok return_res ->
     dom return_res = {[ "loss_value" ]} /\
     exists outputs,
       model self input_ids pixel_values attention_mask true = Ok outputs /\
       is_Some (outputs !! "loss_value") /\
       return_res !! "loss_value" = outputs !! "loss_value") /\
  (forall e,
     model self input_ids pixel_values attention_mask true = Raise e ->
     forward self input_ids pixel_values attention_mask kwargs = Raise e) /\
  (forall outputs,
     model self input_ids pixel_values attention_mask true = Ok outputs ->
     outputs !! "loss_value" = None ->
     forward self input_ids pixel_values attention_mask kwargs
     = Raise KeyError) /\
  forward self input_ids pixel_values attention_mask kwargs
  = forward self input_ids pixel_values attention_mask ∅.
Proof.
  unfold forward, getitem_str.
  destruct (model self input_ids pixel_values attention_mask true)
    as [outputs|e]; rewrite ?bind_Ok, ?bind_Raise.
  - destruct (outputs !! "loss_value") as [v|] eqn:Hv;
      rewrite ?bind_Ok, ?bind_Raise.
    + split; [|split; [|split; [|split]]].
      * intros outputs' v' [= <-] Hv'. rewrite Hv in Hv'.
        injection Hv' as <-. reflexivity.
      * intros return_res [= <-]. split; [apply dom_singleton_L|].
        exists outputs. rewrite Hv, lookup_singleton_eq. eauto.
      * discriminate.
      * intros outputs' [= <-]. congruence.
      * reflexivity.
    + split; [|split; [|split; [|split]]].
      * intros outputs' v' [= <-] Hv'. congruence.
      * discriminate.
      * discriminate.
      * reflexivity.
      * reflexivity.
  - split; [|split; [|split; [|split]]]; try discriminate; try reflexivity.
    by intros e' [= <-].
Qed.

End Loss.

Lemma forward_returns_model_loss_witness :
  Pretrain.forward Examples.toy_loss (Some 1%nat) (Some 2%nat) None
    {[ "labels" := 3%nat ]}
  = Ok {[ "loss_value" := 2 ]}.
Proof.
  destruct (forward_returns_model_loss Examples.toy_loss (Some 1%nat)
              (Some 2%nat) None {[ "labels" := 3%nat ]}) as [Hret _].
  apply (Hret {[ "loss_value" := 2; "logits" := 0 ]}); [reflexivity|].
  rewrite lookup_insert_eq. reflexivity.
Defined.

(** ** The warm-up steps of the pretraining run *)

Section Warmup.
Import Pretrain PretrainSpec.

Lemma warmup_steps_div (n : nat) :
  warmup_steps n = (3 * Z.of_nat n + 99) / 100.
Proof.
  unfold warmup_steps, Qceiling, Qfloor. simpl.
  rewrite Z.mul_1_r.
  Z.to_euclidean_division_equations. lia.
Qed.

Lemma one_percent_of_steps_div (n : nat) :
  one_percent_of_steps n = (3 * ((Z.of_nat n + 127) / 128) + 99) / 100.
Proof.
  unfold one_percent_of_steps, steps_per_epoch, Qceiling, Qfloor. simpl.
  rewrite Z.mul_1_r.
  Z.to_euclidean_division_equations. lia.
Qed.

(** C9. The warm-up steps passed to the trainer are
    ceil(dataset_length * 3 * 0.01), the least integer not below 3% of
    the number of training examples.  That quantity is [batch_size]
    times one percent of the optimizer steps of the 3 epochs
    (dataset_length / 128 of them per epoch); when the examples fill
    whole batches and whole percents the rounded values are in that
    ratio too; and from 34 examples on it exceeds the one percent of
    the optimizer steps that the comment of the configuration
    describes. *)
Theorem warmup_steps_counts_examples (n : nat) :
  warmup_steps n = Qceiling (inject_Z (Z.of_nat n) * 3 * (1 # 100)) /\
  100 * (warmup_steps n - 1) < 3 * Z.of_nat n <= 100 * warmup_steps n /\
  (inject_Z (Z.of_nat n) * 3 * (1 # 100)
   == inject_Z (batch_size train_config)
      * (inject_Z (Z.of_nat n) / inject_Z (batch_size train_config)
         * 3 * (1 # 100)))%Q /\
  (forall k : nat,
     warmup_steps (128 * (100 * k))
     = batch_size train_config * one_percent_of_steps (128 * (100 * k))) /\
  ((34 <= n)%nat -> one_percent_of_steps n < warmup_steps n).
Proof.
  split; [|split; [|split; [|split]]].
  - unfold warmup_steps. apply Qceiling_comp. simpl num_epochs.
    rewrite inject_Z_mult. reflexivity.
  - rewrite warmup_steps_div. Z.to_euclidean_division_equations. lia.
  - simpl batch_size. field.
  - intros k. rewrite warmup_steps_div, one_percent_of_steps_div.
    simpl batch_size. rewrite !Nat2Z.inj_mul.
    change (Z.of_nat 128) with 128. change (Z.of_nat 100) with 100.
    Z.to_euclidean_division_equations. lia.
  - intros Hn. rewrite warmup_steps_div, one_percent_of_steps_div.
    Z.to_euclidean_division_equations. lia.
Qed.

End Warmup.

Lemma warmup_steps_counts_examples_witness :
  PretrainSpec.one_percent_of_steps (128 * 100) = 3 /\
  Pretrain.warmup_steps (128 * 100) = 384 /\
  PretrainSpec.one_percent_of_steps (128 * 100)
  < Pretrain.warmup_steps (128 * 100).
Proof.
  split; [vm_compute; reflexivity|]. split; [vm_compute; reflexivity|].
  destruct (warmup_steps_counts_examples (128 * 100)) as (_ & _ & _ & _ & Hlt).
  apply Hlt. apply Nat.leb_le. vm_compute. reflexivity.
Defined.

(** ** The dispatch on [dataname] *)

Lemma str_in_In (k : string) (l : list string) : str_in k l = true <-> In k l.
Proof.
  unfold str_in. rewrite existsb_exists. split.
  - intros (x & Hx & Heq%String.eqb_eq). by subst.
  - intros Hk. exists k. split; [done|]. apply String.eqb_refl.
Qed.

Lemma str_in_out (k : string) (l big : list string) :
  ~ In k big -> incl l big -> str_in k l = false.
Proof.
  intros Hout Hincl. destruct (str_in k l) eqn:E; [|done].
  destruct Hout. by apply Hincl, str_in_In.
Qed.

Ltac out_of_list H :=
  rewrite ?(str_in_out _ _ _ H) by (intros ? ?; simpl in *; tauto).

Section Dispatch.
Import ScriptSpec.
Context `{ZeroShot.Library} `{LinearProbe.Library}.

Lemma tasks_of_unrecognized (dataname : string) :
  ~ In dataname zeroshot_datanames ->
  ZeroShot.tasks_of dataname = Raise NotImplementedError.
Proof. intros Hout. unfold ZeroShot.tasks_of. by out_of_list Hout. Qed.

Lemma configure_unrecognized (dataname : string) :
  ~ In dataname probe_datanames ->
  LinearProbe.configure dataname = Raise NotImplementedError.
Proof.
  intros Hout. unfold LinearProbe.configure. out_of_list Hout.
  destruct (String.eqb_spec dataname "covid") as [->|_].
  { destruct Hout. simpl. tauto. }
  destruct (String.eqb_spec dataname "covid-2x200") as [->|_].
  { destruct Hout. simpl. tauto. }
  reflexivity.
Qed.

(** C8. For a [dataname] outside the names a script recognizes, the
    script ends with [NotImplementedError] at its first dispatch.  The
    zero-shot script has by then only loaded the pretrained MedCLIP
    model, which does not depend on the task: no dataset, collator,
    data loader, prompt classifier or evaluator was built (and the
    dispatch inside a run would raise the same error before building
    anything).  The linear-probe script has built nothing at all. *)
Theorem unrecognized_dataname_raises (dataname : string) :
  (~ In dataname zeroshot_datanames ->
     ZeroShot.main dataname
     = ([ZeroShot.MedClipModel_built "MedClipVisionModelViT" true
           "/srv/local/data/MedCLIP/checkpoints/vision_text_pretrain/25000/";
         ZeroShot.Model_cuda],
        Raise NotImplementedError) /\
     Forall (fun e => built_for_task e = false) (ZeroShot.main dataname).1 /\
     forall df_sent tasks i,
       ZeroShot.run df_sent dataname tasks i
       = ([], Raise NotImplementedError)) /\
  (~ In dataname probe_datanames ->
     LinearProbe.main dataname = ([], Raise NotImplementedError)).
Proof.
  split.
  - intros Hout.
    assert (Hmain : ZeroShot.main dataname
      = ([ZeroShot.MedClipModel_built "MedClipVisionModelViT" true
            "/srv/local/data/MedCLIP/checkpoints/vision_text_pretrain/25000/";
          ZeroShot.Model_cuda],
         Raise NotImplementedError)).
    { unfold ZeroShot.main. by rewrite (tasks_of_unrecognized _ Hout). }
    split; [exact Hmain|]. split.
    + rewrite Hmain. repeat constructor.
    + intros df_sent tasks i. unfold ZeroShot.run. by out_of_list Hout.
  - intros Hout. unfold LinearProbe.main.
    by rewrite (configure_unrecognized _ Hout).
Qed.

End Dispatch.

(** Runs of the two scripts on the toy libraries. *)

Example zeroshot_covid_trace :
  List.filter ScriptSpec.is_evaluate
    (ZeroShot.main (H := ScriptExamples.toy_zeroshot) "covid-test").1
  = ZeroShot.Evaluate_called <$> [0; 1; 2; 3; 4]%nat.
Proof. reflexivity. Qed.

Example zeroshot_unknown :
  ZeroShot.main (H := ScriptExamples.toy_zeroshot) "covid"
  = ([ZeroShot.MedClipModel_built "MedClipVisionModelViT" true
        "/srv/local/data/MedCLIP/checkpoints/vision_text_pretrain/25000/";
      ZeroShot.Model_cuda], Raise NotImplementedError).
Proof. reflexivity. Qed.

Example probe_unknown :
  LinearProbe.main (H := ScriptExamples.toy_probe) "rsna-2x200-test"
  = ([], Raise NotImplementedError).
Proof. reflexivity. Qed.

Lemma unrecognized_dataname_raises_witness :
  (ZeroShot.main (H := ScriptExamples.toy_zeroshot) "covid").2
  = Raise NotImplementedError /\
  LinearProbe.main (H := ScriptExamples.toy_probe) "covid-test"
  = ([], Raise NotImplementedError).
Proof.
  destruct (unrecognized_dataname_raises
              (H := ScriptExamples.toy_zeroshot)
              (H0 := ScriptExamples.toy_probe) "covid") as [Hzero _].
  destruct (unrecognized_dataname_raises
              (H := ScriptExamples.toy_zeroshot)
              (H0 := ScriptExamples.toy_probe) "covid-test") as [_ Hprobe].
  split.
  - destruct Hzero as [Hmain _].
    + simpl. intros Hin.
      repeat (destruct Hin as [Hin|Hin]; [discriminate Hin|]). exact Hin.
    + by rewrite Hmain.
  - apply Hprobe. simpl. intros Hin.
    repeat (destruct Hin as [Hin|Hin]; [discriminate Hin|]). exact Hin.
Defined.

(** ** The runs of the zero-shot evaluation and their aggregation *)

Section Aggregation.
Import ZeroShot ScriptSpec.
Context `{Library}.

Lemma collect_lookup (res : gmap string metric)
    (metrc_list : gmap string (list metric)) (key : string) :
  collect res metrc_list !! key
  = if str_in key ["pred"; "labels"] then metrc_list !! key
    else match res !! key with
         | Some v => Some (default [] (metrc_list !! key) ++ [v])
         | None => metrc_list !! key
         end.
Proof.
  unfold collect.
  apply (map_fold_weak_ind (fun acc (m : gmap string metric) =>
    acc !! key
    = if str_in key ["pred"; "labels"] then metrc_list !! key
      else match m !! key with
           | Some v => Some (default [] (metrc_list !! key) ++ [v])
           | None => metrc_list !! key
           end)).
  - rewrite lookup_empty. by destruct (str_in key _).
  - intros k v m acc Hfresh IH. unfold collect_step.
    destruct (decide (k = key)) as [->|Hne].
    + rewrite lookup_insert_eq.
      destruct (str_in key ["pred"; "labels"]) eqn:E; simpl; [done|].
      rewrite lookup_insert_eq. rewrite IH, Hfresh. done.
    + rewrite (lookup_insert_ne m) by done.
      destruct (negb (str_in k ["pred"; "labels"])); [|done].
      by rewrite lookup_insert_ne.
Qed.

Lemma checked_run_trace {X} (check : result X) i dataname tasks cls_prompts
    mode r :
  (lift check;; build_and_evaluate i dataname tasks cls_prompts mode).2 = Ok r ->
  List.filter is_evaluate
    (lift check;; build_and_evaluate i dataname tasks cls_prompts mode).1
  = [Evaluate_called i].
Proof. destruct check as [x|e]; [reflexivity|discriminate]. Qed.

Lemma run_trace df_sent dataname tasks i r :
  (run df_sent dataname tasks i).2 = Ok r ->
  List.filter is_evaluate (run df_sent dataname tasks i).1 = [Evaluate_called i].
Proof.
  unfold run.
  destruct (str_in dataname ["chexpert-5x200"; "mimic-5x200"]);
    [apply checked_run_trace|].
  destruct (str_in dataname ["covid-test"; "covid-2x200-test"]);
    [apply checked_run_trace|].
  destruct (str_in dataname ["rsna-balanced-test"; "rsna-2x200-test"]);
    [apply checked_run_trace|].
  discriminate.
Qed.

Lemma runs_returns df_sent dataname tasks (res : nat -> gmap string metric)
    (todo : list nat) (metrc_list : gmap string (list metric)) :
  (forall i, In i todo -> (run df_sent dataname tasks i).2 = Ok (res i)) ->
  exists trace,
    runs df_sent dataname tasks todo metrc_list
    = (trace, Ok (fold_left (fun acc i => collect (res i) acc) todo metrc_list))
    /\ List.filter is_evaluate trace = Evaluate_called <$> todo.
Proof.
  revert metrc_list. induction todo as [|i todo IH]; intros metrc_list Hres.
  - by exists [].
  - pose proof (Hres i (or_introl eq_refl)) as Hi.
    pose proof (run_trace _ _ _ _ _ Hi) as Htrace.
    destruct (IH (collect (res i) metrc_list)) as (trace & Hruns & Hfilter).
    { intros j Hj. apply Hres. by right. }
    cbn [runs].
    destruct (run df_sent dataname tasks i) as [t [r|e]] eqn:Hrun;
      simpl in Hi, Htrace; [|discriminate].
    injection Hi as ->.
    exists (t ++ trace). split.
    + unfold mbind, script_bind. by rewrite Hruns.
    + by rewrite List.filter_app, Htrace, Hfilter.
Qed.

Lemma collected_lookup (res : nat -> gmap string metric) (todo : list nat)
    (metrc_list : gmap string (list metric)) (key : string) :
  fold_left (fun acc i => collect (res i) acc) todo metrc_list !! key
  = if str_in key ["pred"; "labels"] then metrc_list !! key
    else match omap (fun i => res i !! key) todo with
         | [] => metrc_list !! key
         | vs => Some (default [] (metrc_list !! key) ++ vs)
         end.
Proof.
  revert metrc_list. induction todo as [|i todo IH]; intros metrc_list.
  - cbn [fold_left omap list_omap].
    by destruct (str_in key ["pred"; "labels"]).
  - cbn [fold_left]. rewrite IH, collect_lookup.
    destruct (str_in key ["pred"; "labels"]); [done|].
    cbn [omap list_omap].
    destruct (res i !! key) as [v|]; [|done].
    destruct (omap (fun i => res i !! key) todo) as [|v' vs]; [done|].
    simpl. by rewrite <- app_assoc.
Qed.

Lemma not_pred_labels (key : string) :
  key <> "pred" -> key <> "labels" -> str_in key ["pred"; "labels"] = false.
Proof.
  intros Hp Hl. unfold str_in. simpl.
  by rewrite (proj2 (String.eqb_neq key "pred") Hp),
             (proj2 (String.eqb_neq key "labels") Hl).
Qed.

Lemma mean_std_five (x0 x1 x2 x3 x4 : R) :
  let m := ((x0 + x1 + x2 + x3 + x4) / 5)%R in
  np_mean [x0; x1; x2; x3; x4] = m /\
  np_std [x0; x1; x2; x3; x4]
  = sqrt ((Rsqr (x0 - m) + Rsqr (x1 - m) + Rsqr (x2 - m) + Rsqr (x3 - m)
           + Rsqr (x4 - m)) / 5)%R.
Proof.
  intros m.
  assert (Hm : np_mean [x0; x1; x2; x3; x4] = m).
  { unfold np_mean, sum_R, m. simpl. field. }
  split; [exact Hm|].
  unfold np_std. rewrite Hm. f_equal.
  unfold np_mean, sum_R. simpl. field.
Qed.

(** C5. When [dataname] is recognized and the check of the prompts
    passes in every run, the script runs to its end after exactly
    [n_runs] = 5 calls of [evaluator.evaluate()], runs 0 to 4 in order.
    'pred' and 'labels' are never collected.  Every other key holds, in
    run order, one value for each run whose result has the key; a key
    returned with a number in each of the 5 runs holds those 5 numbers,
    and the script reports their arithmetic mean m and their population
    standard deviation, the square root of the mean of the 5 squared
    deviations from m. *)
Theorem five_runs_mean_and_std (dataname : string) (tasks : list string)
    (res : nat -> gmap string metric) :
  tasks_of dataname = Ok tasks ->
  (forall i, (i < n_runs)%nat ->
     (run (read_csv "./local_data/sentence-label.csv") dataname tasks i).2
     = Ok (res i)) ->
  n_runs = 5%nat /\
  exists trace metrc_list,
    main dataname = (trace, Ok (summary <$> metrc_list)) /\
    List.filter is_evaluate trace = Evaluate_called <$> [0; 1; 2; 3; 4]%nat /\
    metrc_list !! "pred" = None /\
    metrc_list !! "labels" = None /\
    (forall key, key <> "pred" -> key <> "labels" ->
       metrc_list !! key
       = match omap (fun i => res i !! key) [0; 1; 2; 3; 4]%nat with
         | [] => None
         | vs => Some vs
         end) /\
    (forall key (x0 x1 x2 x3 x4 : R), key <> "pred" -> key <> "labels" ->
       res 0%nat !! key = Some (Scalar x0) ->
       res 1%nat !! key = Some (Scalar x1) ->
       res 2%nat !! key = Some (Scalar x2) ->
       res 3%nat !! key = Some (Scalar x3) ->
       res 4%nat !! key = Some (Scalar x4) ->
       metrc_list !! key = Some (Scalar <$> [x0; x1; x2; x3; x4]) /\
       let m := ((x0 + x1 + x2 + x3 + x4) / 5)%R in
       (summary <$> metrc_list) !! key
       = Some (m, sqrt ((Rsqr (x0 - m) + Rsqr (x1 - m) + Rsqr (x2 - m)
                         + Rsqr (x3 - m) + Rsqr (x4 - m)) / 5)%R)).
Proof.
  intros Htasks Hres. split; [reflexivity|].
  destruct (runs_returns (read_csv "./local_data/sentence-label.csv")
              dataname tasks res (seq 0 n_runs) ∅) as (trace & Hruns & Hfilter).
  { intros i Hi%in_seq. apply Hres. lia. }
  set (metrc_list :=
         fold_left (fun acc i => collect (res i) acc) (seq 0 n_runs) ∅) in *.
  assert (Hlookup : forall key, key <> "pred" -> key <> "labels" ->
    metrc_list !! key
    = match omap (fun i => res i !! key) [0; 1; 2; 3; 4]%nat with
      | [] => None
      | vs => Some vs
      end).
  { intros key Hp Hl. unfold metrc_list.
    rewrite collected_lookup, (not_pred_labels key Hp Hl), lookup_empty.
    reflexivity. }
  eexists _, metrc_list. split; [|split; [|split; [|split; [|split]]]].
  - unfold main. rewrite Htasks. cbn [vit].
    unfold mbind, script_bind, emit, lift. rewrite Hruns. reflexivity.
  - cbn [app List.filter is_evaluate]. by rewrite app_nil_r.
  - unfold metrc_list. by rewrite collected_lookup.
  - unfold metrc_list. by rewrite collected_lookup.
  - exact Hlookup.
  - intros key x0 x1 x2 x3 x4 Hp Hl H0 H1 H2 H3 H4.
    assert (Hkey : metrc_list !! key
                   = Some (Scalar <$> [x0; x1; x2; x3; x4])).
    { rewrite (Hlookup key Hp Hl). cbn [omap list_omap].
      by rewrite H0, H1, H2, H3, H4. }
    split; [exact Hkey|]. intros m.
    rewrite lookup_fmap, Hkey. cbn [fmap option_fmap option_map].
    unfold summary. cbn [fmap list_fmap flatten mbind list_bind app].
    destruct (mean_std_five x0 x1 x2 x3 x4) as [Hmean Hstd].
    by rewrite Hmean, Hstd.
Qed.

End Aggregation.

Lemma five_runs_mean_and_std_witness :
  exists trace metrc_list,
    ZeroShot.main (H := ScriptExamples.toy_zeroshot) "rsna-2x200-test"
    = (trace, Ok (ZeroShot.summary <$> metrc_list)) /\
    metrc_list !! "acc"
    = Some (ZeroShot.Scalar <$> [INR 0; INR 1; INR 2; INR 3; INR 4]) /\
    metrc_list !! "pred" = None.
Proof.
  destruct (five_runs_mean_and_std (H := ScriptExamples.toy_zeroshot)
              "rsna-2x200-test" ["Normal"; "Pneumonia"]
              (fun i => {[ "acc" := ZeroShot.Scalar (INR i);
                           "pred" := ZeroShot.Array [INR i; 0%R];
                           "labels" := ZeroShot.Array [1%R; 0%R] ]}))
    as (_ & trace & metrc_list & Hmain & _ & Hpred & _ & _ & Hacc).
  - reflexivity.
  - intros i _. reflexivity.
  - exists trace, metrc_list. split; [exact Hmain|]. split; [|exact Hpred].
    apply (Hacc "acc" (INR 0) (INR 1) (INR 2) (INR 3) (INR 4));
      [discriminate | discriminate | apply lookup_insert_eq ..].
Defined.

(** ** The frozen backbone of the linear probe *)

Section Freeze.
Import LinearProbe ScriptSpec.
Context `{Library}.

Lemma head_name_test (name : string) :
  str_in name ["fc.weight"; "fc.bias"] = true <-> head_name name.
Proof.
  rewrite str_in_In. unfold head_name. simpl. intuition congruence.
Qed.

Lemma freeze_lookup {T} (clf : list (string * parameter T)) (i : nat) :
  freeze clf !! i = freeze_one <$> clf !! i.
Proof. apply list_lookup_fmap. Qed.

Lemma freeze_one_backbone {T} (name : string) (p : parameter T) :
  ~ head_name name ->
  freeze_one (name, p) = (name, {| data := data p; requires_grad := false |}).
Proof.
  intros Hb. unfold freeze_one.
  destruct (str_in name ["fc.weight"; "fc.bias"]) eqn:E; [|done].
  by apply head_name_test in E.
Qed.

Lemma freeze_one_head {T} (name : string) (p : parameter T) :
  head_name name -> freeze_one (name, p) = (name, p).
Proof.
  intros Hh%head_name_test. unfold freeze_one. by rewrite Hh.
Qed.

Lemma optimizer_step_frozen {T}
    (update : list (string * parameter T) -> string -> T -> T)
    (clf : list (string * parameter T)) (i : nat) (name : string)
    (p : parameter T) :
  clf !! i = Some (name, p) -> requires_grad p = false ->
  optimizer_step update clf !! i = Some (name, p).
Proof.
  intros Hi Hg. unfold optimizer_step.
  rewrite list_lookup_fmap, Hi. simpl. by rewrite Hg.
Qed.

Lemma train_frozen {T}
    (steps : list (list (string * parameter T) -> string -> T -> T))
    (clf : list (string * parameter T)) (i : nat) (name : string)
    (p : parameter T) :
  clf !! i = Some (name, p) -> requires_grad p = false ->
  train steps clf !! i = Some (name, p).
Proof.
  revert clf. unfold train.
  induction steps as [|update steps IH]; intros clf Hi Hg; [done|].
  simpl. apply IH; [|done]. by apply optimizer_step_frozen.
Qed.

Lemma optimizer_step_length {T}
    (update : list (string * parameter T) -> string -> T -> T)
    (clf : list (string * parameter T)) :
  length (optimizer_step update clf) = length clf.
Proof. unfold optimizer_step. apply length_fmap. Qed.

Lemma train_length {T}
    (steps : list (list (string * parameter T) -> string -> T -> T))
    (clf : list (string * parameter T)) :
  length (train steps clf) = length clf.
Proof.
  revert clf. unfold train.
  induction steps as [|update steps IH]; intros clf; [done|].
  simpl. by rewrite IH, optimizer_step_length.
Qed.

Lemma main_recognized (dataname : string) (cfg : task_config) :
  configure dataname = Ok cfg ->
  exists trace,
    main dataname
    = (trace,
       Ok (train updates
             (freeze (named_parameters vit (num_class cfg) (mode cfg) 512)))).
Proof.
  intros Hcfg. unfold main. rewrite Hcfg. eexists. reflexivity.
Qed.

(** C3. For a recognized [dataname] the script runs to its end.  After
    the freezing loop every parameter of the classifier whose name is
    not 'fc.weight' or 'fc.bias' has [requires_grad] False, and the two
    head parameters are as they were built.  After any number of
    optimizer steps of the training, and so at its end, every parameter
    outside the head still has the tensor it was built with: only the
    head is updated. *)
Theorem linear_probe_trains_head_only (dataname : string) (cfg : task_config) :
  configure dataname = Ok cfg ->
  let built := named_parameters vit (num_class cfg) (mode cfg) 512 in
  exists trace clf,
    main dataname = (trace, Ok clf) /\
    clf = train updates (freeze built) /\
    length clf = length built /\
    (forall name p, In (name, p) (freeze built) -> ~ head_name name ->
       requires_grad p = false) /\
    (forall i name p, built !! i = Some (name, p) -> head_name name ->
       freeze built !! i = Some (name, p)) /\
    (forall i name p, built !! i = Some (name, p) -> ~ head_name name ->
       forall k,
         train (take k updates) (freeze built) !! i
         = Some (name, {| data := data p; requires_grad := false |})) /\
    (forall i name p, built !! i = Some (name, p) -> ~ head_name name ->
       clf !! i = Some (name, {| data := data p; requires_grad := false |})).
Proof.
  intros Hcfg built.
  destruct (main_recognized dataname cfg Hcfg) as [trace Hmain].
  fold built in Hmain.
  assert (Hfrozen : forall i name p, built !! i = Some (name, p) ->
            ~ head_name name ->
            freeze built !! i
            = Some (name, {| data := data p; requires_grad := false |})).
  { intros i name p Hi Hb.
    by rewrite freeze_lookup, Hi, <- (freeze_one_backbone name p Hb). }
  exists trace, (train updates (freeze built)).
  split; [exact Hmain|]. split; [reflexivity|].
  split. { unfold freeze. by rewrite train_length, length_fmap. }
  split; [|split; [|split]].
  - intros name p Hin Hb.
    apply list_elem_of_In, list_elem_of_lookup in Hin as [i Hi].
    rewrite freeze_lookup in Hi.
    destruct (built !! i) as [[name0 p0]|] eqn:E; [|discriminate].
    assert (Hi' : freeze_one (name0, p0) = (name, p)).
    { cbn [fmap option_fmap option_map] in Hi. congruence. }
    clear Hi. rename Hi' into Hi.
    destruct (str_in name0 ["fc.weight"; "fc.bias"]) eqn:Hh.
    + apply head_name_test in Hh.
      rewrite (freeze_one_head name0 p0 Hh) in Hi.
      injection Hi as -> ->. by destruct Hb.
    + rewrite freeze_one_backbone in Hi.
      * by injection Hi as _ <-.
      * intros Hhead%head_name_test. congruence.
  - intros i name p Hi Hh.
    rewrite freeze_lookup, Hi. cbn [fmap option_fmap option_map].
    by rewrite (freeze_one_head name p Hh).
  - intros i name p Hi Hb k.
    apply train_frozen; [by apply Hfrozen|done].
  - intros i name p Hi Hb.
    apply train_frozen; [by apply Hfrozen|done].
Qed.

End Freeze.

Lemma linear_probe_trains_head_only_witness :
  exists trace,
    LinearProbe.main (H := ScriptExamples.toy_probe) "covid"
    = (trace,
       Ok [("model.model.conv1.weight",
            {| LinearProbe.data := 10; LinearProbe.requires_grad := false |});
           ("model.model.fc.weight",
            {| LinearProbe.data := 20; LinearProbe.requires_grad := false |});
           ("fc.weight",
            {| LinearProbe.data := 62; LinearProbe.requires_grad := true |});
           ("fc.bias",
            {| LinearProbe.data := 82; LinearProbe.requires_grad := true |})]).
Proof.
  destruct (linear_probe_trains_head_only (H := ScriptExamples.toy_probe)
              "covid" _ eq_refl) as (trace & clf & Hmain & -> & _).
  exists trace. exact Hmain.
Defined.

(** * Further properties of the scripts *)

(** ** [ImageTextContrastiveDataset.__init__] *)

Section Init.
Import Pretrain PretrainSpec MoreSpec.
Context `{Externals}.

Lemma mapM_Ok {A B} (f : A -> result B) (l : list A) (ks : list B) :
  mapM f l = Ok ks <-> Forall2 (fun x y => f x = Ok y) l ks.
Proof.
  revert ks. induction l as [|x l IH]; intros ks; simpl.
  - split.
    + intros [= <-]. constructor.
    + intros Hf. by inversion Hf.
  - destruct (f x) as [y|e] eqn:Hx; rewrite ?bind_Ok, ?bind_Raise.
    + destruct (mapM f l) as [k|e] eqn:Hl; rewrite ?bind_Ok, ?bind_Raise.
      * split.
        -- intros [= <-]. constructor; [done|]. by apply IH.
        -- intros Hf. inversion Hf as [|? y' ? k' Hy Hk]; subst.
           apply IH in Hk. rewrite Hx in Hy. injection Hy as ->.
           injection Hk as ->. reflexivity.
      * split; [done|]. intros Hf.
        inversion Hf as [|? y' ? k' Hy Hk]; subst. apply IH in Hk. done.
    + split; [done|]. intros Hf. inversion Hf; congruence.
Qed.

Lemma mapM_first_error {A B} (f : A -> result B) (l : list A) (k : nat)
    (x : A) (e : exn) :
  l !! k = Some x -> f x = Raise e ->
  (forall j y, (j < k)%nat -> l !! j = Some y -> returns (f y)) ->
  mapM f l = Raise e.
Proof.
  revert k. induction l as [|x0 l IH]; intros k Hk He Hbefore.
  - by rewrite lookup_nil in Hk.
  - destruct k as [|k].
    + injection Hk as ->. cbn [mapM]. by rewrite He.
    + destruct (Hbefore 0%nat x0) as [y Hy]; [lia|reflexivity|].
      cbn [mapM]. rewrite Hy, bind_Ok.
      rewrite (IH k Hk He); [reflexivity|].
      intros j d Hj Hd. apply (Hbefore (S j)); [lia|exact Hd].
Qed.

Lemma mapM_all {A B} (f : A -> result B) (l : list A) :
  (forall x, In x l -> returns (f x)) ->
  exists ks, mapM f l = Ok ks /\ length ks = length l.
Proof.
  induction l as [|x0 l IH]; intros Hret.
  - by exists [].
  - destruct (Hret x0) as [y Hy]; [by left|].
    destruct IH as (ks & Hks & Hlen). { intros x Hx. apply Hret. by right. }
    exists (y :: ks). cbn [mapM]. rewrite Hy, bind_Ok, Hks.
    split; [reflexivity|]. simpl. by rewrite Hlen.
Qed.

Lemma has_columns_Ok (frame : csv_sentence_frame) (cols : list string) :
  has_columns frame cols = Ok tt
  <-> forall c, In c cols -> In c (csv_columns frame).
Proof.
  unfold has_columns.
  destruct (forallb (fun c => str_in c (csv_columns frame)) cols) eqn:E.
  - split; [|done]. intros _ c Hc.
    rewrite forallb_forall in E. by apply str_in_In, E.
  - split; [discriminate|]. intros Hall.
    assert (Ht : forallb (fun c => str_in c (csv_columns frame)) cols = true).
    { apply forallb_forall. intros c Hc. by apply str_in_In, Hall. }
    congruence.
Qed.

Lemma has_columns_cases (frame : csv_sentence_frame) (cols : list string) :
  has_columns frame cols = Ok tt \/ has_columns frame cols = Raise KeyError.
Proof. unfold has_columns. destruct (forallb _ cols); auto. Qed.

Lemma reports_have_len_Ok (frame : csv_sentence_frame) :
  reports_have_len frame = Ok tt
  <-> forall r, In r (csv_rows frame) -> is_Some (csv_Reports r).
Proof.
  unfold reports_have_len.
  destruct (forallb _ (csv_rows frame)) eqn:E.
  - split; [|done]. intros _ r Hr.
    rewrite forallb_forall in E.
    exact (bool_decide_eq_true_1 (is_Some (csv_Reports r)) (E r Hr)).
  - split; [discriminate|]. intros Hall.
    assert (Ht : forallb (fun r => bool_decide (is_Some (csv_Reports r)))
                   (csv_rows frame) = true).
    { apply forallb_forall. intros r Hr.
      exact (bool_decide_eq_true_2 (is_Some (csv_Reports r)) (Hall r Hr)). }
    congruence.
Qed.

Lemma reports_have_len_cases (frame : csv_sentence_frame) :
  reports_have_len frame = Ok tt \/ reports_have_len frame = Raise TypeError.
Proof. unfold reports_have_len. destruct (forallb _ (csv_rows frame)); auto. Qed.

Lemma well_formed_checks (raw : csv_sentence_frame) :
  well_formed raw
  <-> has_columns raw ["Reports"] = Ok tt /\
      reports_have_len raw = Ok tt /\
      has_columns raw _labels_ = Ok tt.
Proof.
  unfold well_formed.
  rewrite !has_columns_Ok, reports_have_len_Ok. split.
  - intros [Hcols Hrows]. split; [|split; [exact Hrows|]].
    + intros c [<- | []]. apply Hcols. by left.
    + intros c Hc. apply Hcols. by right.
  - intros (Hr & Hrows & Hl). split; [|exact Hrows].
    intros c [<- | Hc]; [apply Hr; by left | by apply Hl].
Qed.

(** The steps of [__init__] after the meta frames are read. *)
Lemma init_steps read_meta_csv read_sentence_csv datalist imgtransform frames :
  mapM (fun data => read_meta_csv (meta_path data)) datalist = Ok frames ->
  init read_meta_csv read_sentence_csv datalist imgtransform =
    (df ← pd_concat frames;
     raw ← read_sentence_csv "./local_data/iuxray-sentence-label.csv";
     has_columns raw ["Reports"];;
     reports_have_len raw;;
     has_columns raw _labels_;;
     Ok {| df := df; transform := imgtransform;
           sentence_label :=
             List.filter (fun s => (2 <? String.length (Reports s))%nat)
               (drop_duplicates [] (fillna <$> csv_rows raw));
           negative_sent_label :=
             List.filter
               (fun s => Nat.ltb 0 (length (List.filter
                  (fun l => Z.eqb (sent_label s l) (-1)) _labels_)))
               (List.filter (fun s => (2 <? String.length (Reports s))%nat)
                  (drop_duplicates [] (fillna <$> csv_rows raw))) |}).
Proof.
  intros Hm. unfold init. cbv zeta.
  change (fun data => read_meta_csv ("./local_data/" +:+ data +:+ "-meta.csv"))
    with (fun data => read_meta_csv (meta_path data)).
  rewrite Hm, bind_Ok. reflexivity.
Qed.

Lemma init_Ok read_meta_csv read_sentence_csv datalist imgtransform self :
  init read_meta_csv read_sentence_csv datalist imgtransform = Ok self <->
  exists frames raw,
    Forall2 (fun data frame => read_meta_csv (meta_path data) = Ok frame)
            datalist frames /\
    datalist <> [] /\
    read_sentence_csv "./local_data/iuxray-sentence-label.csv" = Ok raw /\
    well_formed raw /\
    self = {| df := concat frames; transform := imgtransform;
              sentence_label :=
                List.filter (fun s => (2 <? String.length (Reports s))%nat)
                  (drop_duplicates [] (fillna <$> csv_rows raw));
              negative_sent_label :=
                List.filter
                  (fun s => Nat.ltb 0 (length (List.filter
                     (fun l => Z.eqb (sent_label s l) (-1)) _labels_)))
                  (List.filter (fun s => (2 <? String.length (Reports s))%nat)
                     (drop_duplicates [] (fillna <$> csv_rows raw))) |}.
Proof.
  destruct (mapM (fun data => read_meta_csv (meta_path data)) datalist)
    as [frames|e] eqn:Hm.
  2:{ unfold init. cbv zeta.
      change (fun data =>
                read_meta_csv ("./local_data/" +:+ data +:+ "-meta.csv"))
        with (fun data => read_meta_csv (meta_path data)).
      rewrite Hm, bind_Raise. split; [discriminate|].
      intros (frames & raw & Hf%mapM_Ok & _). congruence. }
  rewrite (init_steps _ _ _ _ frames Hm). apply mapM_Ok in Hm.
  assert (Huniq : forall frames',
    Forall2 (fun data frame => read_meta_csv (meta_path data) = Ok frame)
            datalist frames' -> frames' = frames).
  { clear -Hm. induction Hm as [|d fr dl frs Hd _ IH]; intros frames' Hf;
      inversion Hf; subst; [done|]. f_equal; [congruence|by apply IH]. }
  destruct frames as [|fr frames].
  { cbn [pd_concat]. rewrite bind_Raise. split; [discriminate|].
    intros (? & ? & _ & Hne & _). by inversion Hm; subst. }
  assert (Hne : datalist <> []). { intros ->. inversion Hm. }
  cbn [pd_concat]. rewrite bind_Ok.
  destruct (read_sentence_csv _) as [raw|e] eqn:Hs;
    rewrite ?bind_Ok, ?bind_Raise.
  2:{ split; [discriminate|]. intros (? & ? & _ & _ & Hr & _).
      discriminate Hr. }
  split.
  - intros Heq. exists (fr :: frames), raw.
    split; [exact Hm|]. split; [exact Hne|]. split; [reflexivity|].
    destruct (has_columns raw ["Reports"]) as [[]|e1] eqn:H1;
      rewrite ?bind_Ok, ?bind_Raise in Heq; [|discriminate].
    destruct (reports_have_len raw) as [[]|e2] eqn:H2;
      rewrite ?bind_Ok, ?bind_Raise in Heq; [|discriminate].
    destruct (has_columns raw _labels_) as [[]|e3] eqn:H3;
      rewrite ?bind_Ok, ?bind_Raise in Heq; [|discriminate].
    split; [apply well_formed_checks; by rewrite H1, H2|].
    symmetry. congruence.
  - intros (frames' & raw' & Hf & _ & Hraw & Hwf & Hself).
    apply Huniq in Hf as ->. injection Hraw as <-.
    apply well_formed_checks in Hwf as (-> & -> & ->).
    rewrite !bind_Ok, Hself. reflexivity.
Qed.

Lemma drop_duplicates_In (seen : list string) (frame : list sentence_row)
    (s : sentence_row) :
  In s (drop_duplicates seen frame)
  <-> ~ In (Reports s) seen /\ first_with_report frame s.
Proof.
  revert seen. induction frame as [|s0 frame IH]; intros seen.
  - split; [intros []|]. intros (_ & i & Hi & _). by rewrite lookup_nil in Hi.
  - cbn [drop_duplicates].
    destruct (str_in (Reports s0) seen) eqn:Hseen.
    + apply str_in_In in Hseen. rewrite IH. split.
      * intros (Hs & i & Hi & Hfirst). split; [exact Hs|].
        exists (S i). split; [exact Hi|].
        intros [|j] s' Hj Hs'.
        -- injection Hs' as <-. intros Heq. apply Hs. by rewrite <- Heq.
        -- apply (Hfirst j); [lia|exact Hs'].
      * intros (Hs & [|i] & Hi & Hfirst).
        -- injection Hi as <-. by destruct Hs.
        -- split; [exact Hs|]. exists i. split; [exact Hi|].
           intros j s' Hj Hs'. apply (Hfirst (S j)); [lia|exact Hs'].
    + assert (Hfresh : ~ In (Reports s0) seen).
      { intros Hin%str_in_In. congruence. }
      cbn [In]. rewrite IH. split.
      * intros [<- | (Hs & i & Hi & Hfirst)].
        -- split; [exact Hfresh|]. exists 0%nat. split; [reflexivity|].
           intros j s' Hj. lia.
        -- split; [intros Hin; apply Hs; by right|].
           exists (S i). split; [exact Hi|].
           intros [|j] s' Hj Hs'.
           ++ injection Hs' as <-. intros Heq. apply Hs. by left.
           ++ apply (Hfirst j); [lia|exact Hs'].
      * intros (Hs & [|i] & Hi & Hfirst).
        -- injection Hi as <-. by left.
        -- right. split.
           ++ intros [Heq | Hin]; [|by apply Hs].
              by apply (Hfirst 0%nat s0); [lia| |].
           ++ exists i. split; [exact Hi|].
              intros j s' Hj Hs'. apply (Hfirst (S j)); [lia|exact Hs'].
Qed.

Lemma drop_duplicates_NoDup (seen : list string) (frame : list sentence_row) :
  NoDup (Reports <$> drop_duplicates seen frame).
Proof.
  revert seen. induction frame as [|s0 frame IH]; intros seen.
  - constructor.
  - cbn [drop_duplicates].
    destruct (str_in (Reports s0) seen); [apply IH|].
    rewrite fmap_cons. constructor; [|apply IH].
    intros (s' & Heq & Hin%list_elem_of_In)%list_elem_of_fmap.
    apply drop_duplicates_In in Hin as [Hout _].
    apply Hout. left. congruence.
Qed.

Lemma NoDup_fmap_filter {X Y} (f : X -> Y) (p : X -> bool) (l : list X) :
  NoDup (f <$> l) -> NoDup (f <$> List.filter p l).
Proof.
  induction l as [|x l IH]; [done|].
  rewrite fmap_cons. intros [Hx Hl]%NoDup_cons. cbn [List.filter].
  destruct (p x); [|by apply IH].
  rewrite fmap_cons. apply NoDup_cons. split; [|by apply IH].
  intros (x' & Heq & Hin%list_elem_of_In)%list_elem_of_fmap.
  apply Hx, list_elem_of_fmap. exists x'. split; [exact Heq|].
  apply list_elem_of_In. by apply filter_In in Hin as [Hin _].
Qed.


(** X1. In a dataset that [__init__] has built, the reports of the
    sentence database are pairwise different and each is longer than 2
    characters; the same holds of the negative sentences. *)
Theorem init_sentences_distinct
    read_meta_csv read_sentence_csv datalist imgtransform self :
  init read_meta_csv read_sentence_csv datalist imgtransform = Ok self ->
  NoDup (Reports <$> sentence_label self) /\
  NoDup (Reports <$> negative_sent_label self) /\
  (forall s, In s (sentence_label self) ->
     (2 < String.length (Reports s))%nat) /\
  (forall s, In s (negative_sent_label self) -> In s (sentence_label self)).
Proof.
  intros (frames & raw & _ & _ & _ & _ & ->)%init_Ok.
  cbn [sentence_label negative_sent_label].
  assert (Hnd : NoDup (Reports <$>
            List.filter (fun s => (2 <? String.length (Reports s))%nat)
              (drop_duplicates [] (fillna <$> csv_rows raw)))).
  { apply NoDup_fmap_filter, drop_duplicates_NoDup. }
  split; [exact Hnd|]. split; [by apply NoDup_fmap_filter|].
  split.
  - intros s [_ Hlen]%filter_In. by apply Nat.ltb_lt.
  - intros s [Hin _]%filter_In. exact Hin.
Qed.

(** X2. The sentence database of a dataset that [__init__] has built
    holds exactly the rows of the sentence file (empty label cells read
    as 0) that are the first row of the file with their report and
    whose report is longer than 2 characters: of rows sharing a report,
    the labels of the first one are kept. *)
Theorem init_keeps_first_rows
    read_meta_csv read_sentence_csv datalist imgtransform self :
  init read_meta_csv read_sentence_csv datalist imgtransform = Ok self ->
  exists raw,
    read_sentence_csv "./local_data/iuxray-sentence-label.csv" = Ok raw /\
    forall s,
      In s (sentence_label self)
      <-> first_with_report (fillna <$> csv_rows raw) s /\
          (2 < String.length (Reports s))%nat.
Proof.
  intros (frames & raw & _ & _ & Hraw & _ & ->)%init_Ok.
  exists raw. split; [exact Hraw|]. intros s.
  cbn [sentence_label]. rewrite filter_In, drop_duplicates_In, Nat.ltb_lt.
  cbn [In]. tauto.
Qed.

(** X3. A dataset that [__init__] has built holds the rows of the meta
    files of [datalist], in the order of [datalist]: its length is the
    sum of the lengths of the frames, and the rows of a frame follow
    those of the frames before it. *)
Theorem init_concatenates_frames
    read_meta_csv read_sentence_csv datalist imgtransform self :
  init read_meta_csv read_sentence_csv datalist imgtransform = Ok self ->
  exists frames,
    Forall2 (fun data frame => read_meta_csv (meta_path data) = Ok frame)
            datalist frames /\
    len self = sum_list (length <$> frames) /\
    forall k frame i row,
      frames !! k = Some frame -> frame !! i = Some row ->
      df self !! (sum_list (length <$> take k frames) + i)%nat = Some row.
Proof.
  intros (frames & raw & Hf & _ & _ & _ & ->)%init_Ok.
  exists frames. split; [exact Hf|]. unfold len. cbn [df]. clear.
  split.
  - induction frames as [|fr frames IH]; [done|].
    cbn [concat]. rewrite length_app, IH. reflexivity.
  - induction frames as [|fr frames IH]; intros k frame i row Hk Hi.
    + by rewrite lookup_nil in Hk.
    + destruct k as [|k].
      * injection Hk as ->. cbn [concat take fmap list_fmap sum_list].
        rewrite lookup_app_l; [exact Hi|]. by apply lookup_lt_Some in Hi.
      * cbn [concat take]. rewrite fmap_cons. cbn [sum_list].
        unfold Datatypes.id.
        rewrite <- Nat.add_assoc, lookup_app_r by lia.
        replace (length fr + (sum_list (length <$> take k frames) + i)
                 - length fr)%nat
          with (sum_list (length <$> take k frames) + i)%nat by lia.
        by apply (IH k frame).
Qed.

(** X4. The errors of [__init__], in the order of the code.  The error
    of the first meta file of [datalist] that cannot be read is raised.
    When all meta files are read: an empty [datalist] raises the
    [ValueError] of [pd.concat] (the sentence file is not looked at);
    otherwise the error of reading the sentence file is raised; when it
    is read, a missing column 'Reports' raises [KeyError], then a cell
    of 'Reports' without a text raises [TypeError], then a missing label
    column raises [KeyError]; and in the remaining case [__init__]
    returns. *)
Theorem init_raises_first_error
    read_meta_csv read_sentence_csv datalist imgtransform :
  let run := init read_meta_csv read_sentence_csv datalist imgtransform in
  (forall k data e,
     datalist !! k = Some data ->
     read_meta_csv (meta_path data) = Raise e ->
     (forall j d, (j < k)%nat -> datalist !! j = Some d ->
        returns (read_meta_csv (meta_path d))) ->
     run = Raise e) /\
  ((forall d, In d datalist -> returns (read_meta_csv (meta_path d))) ->
   (datalist = [] -> run = Raise ValueError) /\
   (datalist <> [] ->
    (forall e,
       read_sentence_csv "./local_data/iuxray-sentence-label.csv" = Raise e ->
       run = Raise e) /\
    (forall raw,
       read_sentence_csv "./local_data/iuxray-sentence-label.csv" = Ok raw ->
       (~ In "Reports" (csv_columns raw) -> run = Raise KeyError) /\
       (In "Reports" (csv_columns raw) ->
        (exists r, In r (csv_rows raw) /\ csv_Reports r = None) ->
        run = Raise TypeError) /\
       (In "Reports" (csv_columns raw) ->
        (forall r, In r (csv_rows raw) -> is_Some (csv_Reports r)) ->
        (exists l, In l _labels_ /\ ~ In l (csv_columns raw)) ->
        run = Raise KeyError) /\
       (well_formed raw -> returns run)))).
Proof.
  intros run. split.
  - intros k data e Hk He Hbefore. unfold run, init. cbv zeta.
    change (fun data => read_meta_csv ("./local_data/" +:+ data +:+ "-meta.csv"))
      with (fun data => read_meta_csv (meta_path data)).
    by rewrite (mapM_first_error _ datalist k data e Hk He Hbefore).
  - intros Hret.
    destruct (mapM_all (fun data => read_meta_csv (meta_path data))
                datalist Hret) as (frames & Hframes & Hlen).
    unfold run. rewrite (init_steps _ _ _ _ frames Hframes). split.
    { intros ->. by destruct frames. }
    intros Hne.
    destruct frames as [|fr frames]; [by destruct datalist|].
    cbn [pd_concat]. rewrite bind_Ok. split.
    { intros e ->. reflexivity. }
    intros raw ->. rewrite bind_Ok.
    assert (Hrep : In "Reports" (csv_columns raw)
                   -> has_columns raw ["Reports"] = Ok tt).
    { intros Hin. apply has_columns_Ok. by intros c [<- | []]. }
    split; [|split; [|split]].
    + intros Hout.
      destruct (has_columns_cases raw ["Reports"]) as [Hok | ->];
        [|reflexivity].
      destruct Hout. apply (proj1 (has_columns_Ok raw ["Reports"]) Hok).
      by left.
    + intros Hin (r & Hr & Hnone). rewrite (Hrep Hin), bind_Ok.
      destruct (reports_have_len_cases raw) as [Hok | ->]; [|reflexivity].
      destruct (proj1 (reports_have_len_Ok raw) Hok r Hr) as [text Htext].
      congruence.
    + intros Hin Hrows (l & Hl & Hout). rewrite (Hrep Hin), bind_Ok.
      rewrite (proj2 (reports_have_len_Ok raw) Hrows), bind_Ok.
      destruct (has_columns_cases raw _labels_) as [Hok | ->]; [|reflexivity].
      destruct Hout. by apply (proj1 (has_columns_Ok raw _labels_) Hok).
    + intros (-> & -> & ->)%well_formed_checks. rewrite !bind_Ok.
      by eexists.
Qed.

End Init.

Example init_toy :
  Pretrain.init (H := Examples.toy_externals)
    MoreExamples.toy_read_meta MoreExamples.toy_read_sentence
    ["chexpert"; "mimic-cxr"; "iuxray"] Examples.toy_transform
  = Ok MoreExamples.toy_built.
Proof. reflexivity. Qed.

Example init_empty_datalist :
  Pretrain.init (H := Examples.toy_externals)
    MoreExamples.toy_read_meta MoreExamples.toy_read_sentence
    [] Examples.toy_transform
  = Raise ValueError.
Proof. reflexivity. Qed.

Lemma init_sentences_distinct_witness :
  NoDup (Pretrain.Reports <$> Pretrain.sentence_label MoreExamples.toy_built).
Proof.
  destruct (init_sentences_distinct _ _ _ _ _ init_toy) as [Hnd _].
  exact Hnd.
Defined.

Lemma init_keeps_first_rows_witness :
  In MoreExamples.kept_clear (Pretrain.sentence_label MoreExamples.toy_built) /\
  Pretrain.sent_label MoreExamples.kept_clear "Edema" = 0.
Proof.
  destruct (init_keeps_first_rows _ _ _ _ _ init_toy) as (raw & Hraw & Hin).
  split; [|reflexivity].
  injection Hraw as <-. apply Hin. split; [|cbn; lia].
  exists 0%nat. split; [reflexivity|]. intros j s' Hj. lia.
Defined.

Lemma init_concatenates_frames_witness :
  Pretrain.len MoreExamples.toy_built = 4%nat /\
  Pretrain.df MoreExamples.toy_built !! 2%nat = Some Examples.row_fracture.
Proof.
  destruct (init_concatenates_frames _ _ _ _ _ init_toy)
    as (frames & Hf & Hlen & Hrow).
  split; [reflexivity|].
  inversion Hf as [|? fr0 ? frs0 H0 Hf0]; subst.
  inversion Hf0 as [|? fr1 ? frs1 H1 Hf1]; subst.
  injection H0 as <-. injection H1 as <-.
  exact (Hrow 1%nat _ 0%nat _ eq_refl eq_refl).
Defined.

Lemma init_raises_first_error_witness :
  Pretrain.init (H := Examples.toy_externals)
    MoreExamples.toy_read_meta MoreExamples.toy_read_sentence
    ["chexpert"; "padchest"; "iuxray"] Examples.toy_transform
  = Raise IOError /\
  Pretrain.init (H := Examples.toy_externals)
    MoreExamples.toy_read_meta MoreExamples.gap_read_sentence
    ["chexpert"] Examples.toy_transform
  = Raise TypeError.
Proof.
  split.
  - destruct (init_raises_first_error (H := Examples.toy_externals)
                MoreExamples.toy_read_meta
                MoreExamples.toy_read_sentence
                ["chexpert"; "padchest"; "iuxray"] Examples.toy_transform)
      as [Hfirst _].
    apply (Hfirst 1%nat "padchest"); [reflexivity|reflexivity|].
    intros [|j] d Hj Hd; [|lia]. injection Hd as <-. by eexists.
  - destruct (init_raises_first_error (H := Examples.toy_externals)
                MoreExamples.toy_read_meta
                MoreExamples.gap_read_sentence
                ["chexpert"] Examples.toy_transform)
      as [_ Hread].
    destruct Hread as [_ Hrest].
    { intros d [<- | []]. by eexists. }
    destruct (Hrest ltac:(discriminate)) as [_ Hraw].
    destruct (Hraw _ eq_refl) as (_ & Hgap & _).
    apply Hgap; [by left|].
    eexists. split; [right; left; reflexivity | reflexivity].
Defined.

(** ** [ImageTextContrastiveDataset.__getitem__]: errors, results, cells *)

Section GetItemMore.
Import Pretrain PretrainSpec MoreSpec.
Context `{Externals}.

(** The value of [__getitem__] once the row is found and its image
    opens. *)
Lemma getitem_sampled self index rnd row img :
  index_of (df self) index = Ok row ->
  Image_open (imgpath row) = Ok img ->
  getitem self index rnd =
    (s ← sample (sampled_frame self row) rnd;
     Ok (unsqueeze1 (transform self img), appended row s)).
Proof.
  intros Hrow Himg. unfold getitem, sampled_frame.
  rewrite Hrow, bind_Ok, Himg, bind_Ok.
  destruct (all_zero (label row <$> _labels_)); [reflexivity|].
  destruct (sents self row); reflexivity.
Qed.

Lemma sampled_frame_sub self row s :
  In s (sampled_frame self row) -> In s (sentence_label self).
Proof.
  unfold sampled_frame.
  destruct (all_zero (label row <$> _labels_)).
  - by intros [Hin _]%filter_In.
  - destruct (sents self row) as [|s0 ss] eqn:E.
    + unfold fallback. by intros [Hin _]%filter_In.
    + rewrite <- E. unfold sents. by intros [Hin _]%filter_In.
Qed.

(** X7. For a row whose 14 labels are all zero, [__getitem__] raises
    [ValueError] for every draw when no sentence of the database has a
    positive 'No Finding' label, and returns for every draw otherwise
    (the image being readable). *)
Theorem getitem_unlabelled_empty_pool (self : ImageTextContrastiveDataset)
    (index : Z) (row : meta_row) (img : Image) :
  index_of (df self) index = Ok row ->
  Image_open (imgpath row) = Ok img ->
  no_label row ->
  ((forall s, In s (sentence_label self) -> sent_label s "No Finding" <= 0) ->
     forall rnd, getitem self index rnd = Raise ValueError) /\
  ((exists s, In s (sentence_label self) /\ 0 < sent_label s "No Finding") ->
     forall rnd, returns (getitem self index rnd)).
Proof.
  intros Hrow Himg Hl. split.
  - intros Hnone rnd.
    rewrite (getitem_unlabelled self index rnd row img Hrow Himg Hl).
    destruct (List.filter _ _) as [|s ss] eqn:E; [reflexivity|].
    assert (Hs : In s (List.filter (fun s => 0 <? sent_label s "No Finding")
                                   (sentence_label self))).
    { rewrite E. by left. }
    apply filter_In in Hs as [Hs Hpos%Z.ltb_lt]. specialize (Hnone s Hs). lia.
  - intros (s & Hs & Hpos) rnd.
    rewrite (getitem_unlabelled self index rnd row img Hrow Himg Hl).
    apply sample_bind_returns. intros Hnil.
    assert (Hin : In s (List.filter (fun s => 0 <? sent_label s "No Finding")
                                    (sentence_label self))).
    { apply filter_In. split; [exact Hs|]. by apply Z.ltb_lt. }
    rewrite Hnil in Hin. destruct Hin.
Qed.

Lemma getitem_Ok_inv (self : ImageTextContrastiveDataset) (index : Z)
    (rnd : nat) (img : tensor) (text : string) :
  getitem self index rnd = Ok (img, text) ->
  exists row image s,
    index_of (df self) index = Ok row /\
    Image_open (imgpath row) = Ok image /\
    img = unsqueeze1 (transform self image) /\
    In s (sentence_label self) /\
    text = appended row s.
Proof.
  intros Hget.
  destruct (index_of (df self) index) as [row|e] eqn:Hrow.
  2:{ unfold getitem in Hget. by rewrite Hrow in Hget. }
  destruct (Image_open (imgpath row)) as [image|e] eqn:Himg.
  2:{ unfold getitem in Hget. by rewrite Hrow, bind_Ok, Himg in Hget. }
  rewrite (getitem_sampled self index rnd row image Hrow Himg) in Hget.
  destruct (sample (sampled_frame self row) rnd) as [s|e] eqn:Hs;
    [|discriminate].
  rewrite bind_Ok in Hget. injection Hget as <- <-.
  exists row, image, s. repeat split; try done.
  apply (sampled_frame_sub self row), (sample_Ok_In _ rnd), Hs.
Qed.

Lemma product_same_sign (a z : Z) : 0 < a * z <-> same_sign a z.
Proof.
  unfold same_sign. split; [intros Hp | intros [[? ?]|[? ?]]; nia].
  destruct (Z.lt_trichotomy a 0) as [?|[?|?]];
    destruct (Z.lt_trichotomy z 0) as [?|[?|?]]; nia.
Qed.

(** X9. For a labelled row none of whose label cells is empty: when no
    sentence of the database matches the row on one of the 13 pathology
    labels, every sentence [__getitem__] can append matches the row on
    'No Finding': the two 'No Finding' labels are nonzero and of the
    same sign. *)
Theorem getitem_fallback_no_finding (self : ImageTextContrastiveDataset)
    (index : Z) (rnd : nat) (row : meta_row) (img : tensor) (text : string) :
  index_of (df self) index = Ok row ->
  has_label row ->
  all_present row ->
  (forall s, In s (sentence_label self) ->
     ~ matches_on pathology_labels row s) ->
  getitem self index rnd = Ok (img, text) ->
  exists s z,
    In s (sentence_label self) /\ text = appended row s /\
    label row "No Finding" = Some z /\
    same_sign (sent_label s "No Finding") z.
Proof.
  intros Hrow Hl Hp Hnone Hget.
  destruct (Image_open (imgpath row)) as [image|e] eqn:Himg.
  2:{ unfold getitem in Hget. by rewrite Hrow, bind_Ok, Himg in Hget. }
  rewrite (getitem_labelled self index rnd row image Hrow Himg Hl) in Hget.
  assert (Hs : sents self row = []).
  { apply (no_match_no_frame _ _ (In_sents self row Hp)).
    intros (s & Hin & Hm). by apply (Hnone s). }
  rewrite Hs in Hget.
  destruct (sample (fallback self row) rnd) as [s|e] eqn:Hsample;
    [|discriminate].
  rewrite bind_Ok in Hget. injection Hget as <- <-.
  apply sample_Ok_In, (In_fallback self row Hp) in Hsample
    as (Hin & l & Hl14 & z & Hz & Hpos).
  destruct Hl14 as [<- | Hl13].
  - exists s, z. split; [done|]. split; [done|]. split; [done|].
    by apply product_same_sign.
  - destruct (Hnone s Hin). exists l. split; [done|]. by exists z.
Qed.

(** X10. A row of [bool_sent_label] has one cell for each of the 14
    labels.  Where the label of the row is a number, the cell is a
    number that is never negative, and it is positive exactly when the
    label of the sentence and the label of the row are nonzero and of
    the same sign; for labels among -1, 0 and 1 the cell is 1 when the
    two labels are equal and nonzero, and 0 otherwise.  Where the label
    cell of the row is empty, so is the cell. *)
Theorem bool_sent_label_cells (row : meta_row) (s : sentence_row) :
  length (bool_sent_label row s) = 14%nat /\
  forall i l, _labels_ !! i = Some l ->
    exists c,
      bool_sent_label row s !! i = Some c /\
      (label row l = None -> c = None) /\
      forall z, label row l = Some z ->
        exists v,
          c = Some v /\
          0 <= v /\
          (0 < v <-> same_sign (sent_label s l) z) /\
          (ternary (sent_label s l) -> ternary z ->
             v = if decide (sent_label s l = z /\ z <> 0) then 1 else 0).
Proof.
  split; [reflexivity|].
  intros i l Hi.
  exists (zero_negative (times (sent_label s l) (label row l))).
  split. { unfold bool_sent_label. by rewrite list_lookup_fmap, Hi. }
  split. { by intros ->. }
  intros z ->. unfold times, zero_negative. cbn [fmap option_fmap option_map is_negative].
  destruct (Z.ltb_spec (sent_label s l * z) 0) as [Hneg|Hpos].
  - exists 0. split; [reflexivity|]. split; [lia|]. split.
    + rewrite <- product_same_sign. lia.
    + unfold ternary. intros Hs Hr. destruct (decide _) as [[Heq Hne]|Hno]; nia.
  - exists (sent_label s l * z). split; [reflexivity|]. split; [lia|]. split.
    + apply product_same_sign.
    + unfold ternary. intros Hs Hr. destruct (decide _) as [[Heq Hne]|Hno]; nia.
Qed.

Lemma string_length_app (a b : string) :
  String.length (a +:+ b) = (String.length a + String.length b)%nat.
Proof.
  induction a as [|c a IH]; [reflexivity|].
  change (S (String.length (a +:+ b))
          = S (String.length a + String.length b)).
  by f_equal.
Qed.

(** X11. In a dataset that [__init__] has built, the report that
    [__getitem__] returns is at least 4 characters longer than the
    report of the row: a space and a sentence of more than 2
    characters are appended. *)
Theorem getitem_after_init_appends
    read_meta_csv read_sentence_csv datalist imgtransform self
    (index : Z) (rnd : nat) (img : tensor) (text : string) :
  init read_meta_csv read_sentence_csv datalist imgtransform = Ok self ->
  getitem self index rnd = Ok (img, text) ->
  exists row,
    index_of (df self) index = Ok row /\
    (String.length (default "" (report row)) + 4 <= String.length text)%nat.
Proof.
  intros (frames & raw & _ & _ & _ & _ & ->)%init_Ok Hget.
  destruct (getitem_Ok_inv _ index rnd img text Hget)
    as (row & image & s & Hrow & _ & _ & Hin & ->).
  cbn [sentence_label] in Hin.
  apply filter_In in Hin as [_ Hlong%Nat.ltb_lt].
  exists row. split; [exact Hrow|]. unfold appended.
  rewrite !string_length_app.
  change (String.length " ") with 1%nat.
  destruct (report row); cbn [default from_option]; unfold Datatypes.id; lia.
Qed.

(** X28. A row with an empty cell in one of the 13 pathology columns
    is not a row without labels, and every sentence passes the test of
    [sents]: [__getitem__] appends any sentence of the database,
    whatever the labels of the row and of the sentence; it returns for
    every draw when the database has a sentence and raises [ValueError]
    when it has none. *)
Theorem getitem_empty_cell_draws_any_sentence
    (self : ImageTextContrastiveDataset) (index : Z) (row : meta_row)
    (img : Image) :
  index_of (df self) index = Ok row ->
  Image_open (imgpath row) = Ok img ->
  (exists l, In l pathology_labels /\ label row l = None) ->
  let out s := (unsqueeze1 (transform self img), appended row s) in
  drawn_exactly_from (getitem self index)
    (fun s => In s (sentence_label self)) out /\
  (sentence_label self <> [] ->
     forall rnd, returns (getitem self index rnd)) /\
  (sentence_label self = [] ->
     forall rnd, getitem self index rnd = Raise ValueError).
Proof.
  intros Hrow Himg (l & Hl & Hz) out.
  pose proof (pathology_is_label l Hl) as Hl14.
  assert (Hget : forall rnd, getitem self index rnd
             = (s ← sample (sentence_label self) rnd; Ok (out s))).
  { intros rnd.
    rewrite (getitem_else self index rnd row img Hrow Himg
               (row_test_empty_cell row l Hl14 Hz)).
    rewrite (sents_empty_cell self row l Hl Hz),
            (fallback_empty_cell self row l Hl14 Hz).
    by destruct (sentence_label self). }
  destruct (drawn_from_sample (sentence_label self)
              (fun s => In s (sentence_label self)) out) as [Hsound Hreach];
    [done|].
  split; [split|split].
  - intros rnd b. rewrite Hget. apply Hsound.
  - intros s Hs. destruct (Hreach s Hs) as [rnd Hrnd]. exists rnd.
    by rewrite Hget.
  - intros Hne rnd. rewrite Hget. by apply sample_bind_returns.
  - intros Hnil rnd. rewrite Hget, Hnil. reflexivity.
Qed.

End GetItemMore.

Lemma getitem_unlabelled_empty_pool_witness :
  PretrainSpec.no_label Examples.row_blank /\
  Pretrain.getitem MoreExamples.bare_dataset 1 0 = Raise ValueError.
Proof.
  assert (Hl : PretrainSpec.no_label Examples.row_blank).
  { intros l _. reflexivity. }
  split; [exact Hl|].
  destruct (getitem_unlabelled_empty_pool MoreExamples.bare_dataset 1
              Examples.row_blank "b.jpg" eq_refl eq_refl Hl) as [Hnone _].
  apply Hnone. intros s [<- | [<- | [<- | []]]]; vm_compute; discriminate.
Defined.

Lemma getitem_fallback_no_finding_witness :
  exists s z,
    In s (Pretrain.sentence_label MoreExamples.normal_dataset) /\
    "normal chest the lungs are clear"
    = PretrainSpec.appended MoreExamples.row_normal s /\
    Pretrain.label MoreExamples.row_normal "No Finding" = Some z /\
    MoreSpec.same_sign (Pretrain.sent_label s "No Finding") z.
Proof.
  apply (getitem_fallback_no_finding MoreExamples.normal_dataset 0 0
           MoreExamples.row_normal [[5%nat]]
           "normal chest the lungs are clear" eq_refl).
  - exists "No Finding", 1.
    split; [cbn; tauto | split; [reflexivity | lia]].
  - by apply (cells_of_present [("No Finding", 1)]).
  - intros s Hs (l & Hl & z & Hz & Hpos). revert Hz Hpos. cbn in Hs, Hl.
    destruct Hs as [<- | [<- | [<- | [<- | []]]]];
      repeat (destruct Hl as [<- | Hl];
              [intros [= <-]; vm_compute; discriminate|]);
      destruct Hl.
  - reflexivity.
Defined.

Lemma bool_sent_label_cells_witness :
  Pretrain.bool_sent_label Examples.row_no_edema Examples.sent_no_edema
    !! 5%nat = Some (Some 1) /\
  Pretrain.bool_sent_label Examples.row_edema Examples.sent_no_edema
    !! 5%nat = Some (Some 0) /\
  Pretrain.bool_sent_label Examples.row_fracture_nan Examples.sent_no_edema
    !! 5%nat = Some None.
Proof.
  split; [|split].
  - destruct (bool_sent_label_cells Examples.row_no_edema
                Examples.sent_no_edema) as [_ Hcells].
    destruct (Hcells 5%nat "Edema" eq_refl) as (c & Hc & _ & Hnum).
    destruct (Hnum (-1) eq_refl) as (v & -> & _ & _ & Hval).
    rewrite Hc, Hval; [reflexivity | by left | by left].
  - destruct (bool_sent_label_cells Examples.row_edema
                Examples.sent_no_edema) as [_ Hcells].
    destruct (Hcells 5%nat "Edema" eq_refl) as (c & Hc & _ & Hnum).
    destruct (Hnum 1 eq_refl) as (v & -> & _ & _ & Hval).
    rewrite Hc, Hval; [reflexivity | by left | by right; right].
  - destruct (bool_sent_label_cells Examples.row_fracture_nan
                Examples.sent_no_edema) as [_ Hcells].
    destruct (Hcells 5%nat "Edema" eq_refl) as (c & Hc & Hnan & _).
    by rewrite Hc, Hnan.
Defined.

Lemma getitem_after_init_appends_witness :
  exists row,
    index_of (Pretrain.df MoreExamples.toy_built) 1 = Ok row /\
    (String.length (default "" (Pretrain.report row)) + 4
     <= String.length " the lungs are clear")%nat.
Proof.
  exact (getitem_after_init_appends (H := Examples.toy_externals)
           _ _ _ _ _ 1 0 [[5%nat]] " the lungs are clear" init_toy eq_refl).
Defined.

Lemma getitem_empty_cell_draws_any_sentence_witness :
  (exists l, In l PretrainSpec.pathology_labels /\
     Pretrain.label Examples.row_edema_nan l = None) /\
  exists rnd,
    Pretrain.getitem Examples.nan_dataset 0 rnd
    = Ok ([[5%nat]], "portable chest no pulmonary edema").
Proof.
  assert (Hgap : exists l, In l PretrainSpec.pathology_labels /\
                   Pretrain.label Examples.row_edema_nan l = None).
  { exists "Fracture". split; [cbn; tauto | reflexivity]. }
  split; [exact Hgap|].
  destruct (getitem_empty_cell_draws_any_sentence Examples.nan_dataset 0
              Examples.row_edema_nan "f.jpg" eq_refl eq_refl Hgap)
    as [[_ Hreach] _].
  apply (Hreach Examples.sent_no_edema). cbn. tauto.
Defined.

(** ** [collate_fn]: the token matrices and the image rows *)

Section CollateMore.
Import Pretrain PretrainSpec MoreSpec.
Context `{Externals}.

Lemma collate_fn_fields (batch : list (tensor * string))
    (inputs : gmap string batch_value) :
  collate_fn batch = Ok inputs ->
  batch <> [] /\
  inputs !! "pixel_values" = Some (Pixels (concat batch.*1)) /\
  inputs !! "input_ids" = Some (TokenMatrix (input_ids (encode_batch batch.*2))) /\
  inputs !! "attention_mask"
  = Some (TokenMatrix (attention_mask (encode_batch batch.*2))).
Proof.
  intros Hret. destruct batch as [|data batch]; [discriminate|].
  rewrite collate_fn_value in Hret by discriminate. injection Hret as <-.
  split; [discriminate|]. split; [|split].
  - rewrite !lookup_insert_ne by done. apply lookup_insert_eq.
  - rewrite lookup_insert_ne by done. apply lookup_insert_eq.
  - apply lookup_insert_eq.
Qed.

Lemma batch_width_ge (batch : list (tensor * string)) (i : nat)
    (data : tensor * string) :
  batch !! i = Some data ->
  (length (encode model_max_length data.2) <= batch_width batch)%nat.
Proof.
  intros Hi. apply max_list_elem_of_le.
  apply list_elem_of_lookup. exists i.
  by rewrite !list_lookup_fmap, Hi.
Qed.

Lemma max_list_attained (l : list nat) : l <> [] -> In (max_list l) l.
Proof.
  induction l as [|x l IH]; [done|]. intros _.
  change (max_list (x :: l)) with (x `max` max_list l)%nat.
  destruct (Nat.max_spec x (max_list l)) as [[Hlt ->] | [_ ->]].
  - right. apply IH. intros ->. cbn in Hlt. lia.
  - by left.
Qed.

Lemma pad_to_length (width : nat) (e : list Z) :
  (length e <= width)%nat -> length (pad_to width e) = width.
Proof.
  intros Hle. unfold pad_to. rewrite length_app, length_replicate. lia.
Qed.

Lemma mask_to_length (width : nat) (e : list Z) :
  (length e <= width)%nat -> length (mask_to width e) = width.
Proof.
  intros Hle. unfold mask_to. rewrite length_app, !length_replicate. lia.
Qed.

Lemma tokens_row (batch : list (tensor * string)) (i : nat)
    (data : tensor * string) :
  batch !! i = Some data ->
  input_ids (encode_batch batch.*2) !! i
  = Some (pad_to (batch_width batch) (encode model_max_length data.2)) /\
  attention_mask (encode_batch batch.*2) !! i
  = Some (mask_to (batch_width batch) (encode model_max_length data.2)).
Proof.
  intros Hi. unfold encode_batch, batch_width. cbn [input_ids attention_mask].
  by rewrite !list_lookup_fmap, Hi.
Qed.

(** X12. The token matrices [collate_fn] returns are rectangular: they
    have one row for each item of the batch and all rows of 'input_ids'
    and of 'attention_mask' have one and the same length, which is at
    most 77 when the tokenizer truncates to the model maximum length. *)
Theorem collate_fn_token_shape (batch : list (tensor * string))
    (inputs : gmap string batch_value) (ids mask : list (list Z)) :
  collate_fn batch = Ok inputs ->
  inputs !! "input_ids" = Some (TokenMatrix ids) ->
  inputs !! "attention_mask" = Some (TokenMatrix mask) ->
  exists width,
    length ids = length batch /\ length mask = length batch /\
    (forall row, In row ids -> length row = width) /\
    (forall row, In row mask -> length row = width) /\
    ((forall n text, (length (encode n text) <= n)%nat) ->
       (width <= 77)%nat).
Proof.
  intros (Hne & _ & Hids & Hmask)%collate_fn_fields Hids' Hmask'.
  rewrite Hids in Hids'. injection Hids' as <-.
  rewrite Hmask in Hmask'. injection Hmask' as <-.
  exists (batch_width batch).
  assert (Hrow : forall (f : nat -> list Z -> list Z) row,
    (forall e, (length e <= batch_width batch)%nat ->
       length (f (batch_width batch) e) = batch_width batch) ->
    In row (f (batch_width batch) <$> (encode model_max_length <$> batch.*2)) ->
    length row = batch_width batch).
  { intros f row Hf (e & <- & He)%in_map_iff. apply Hf.
    apply list_elem_of_In, list_elem_of_lookup in He as [i Hi].
    rewrite !list_lookup_fmap in Hi.
    destruct (batch !! i) as [data|] eqn:E; [|discriminate].
    injection Hi as <-. by apply (batch_width_ge batch i). }
  split. { unfold encode_batch. cbn [input_ids]. by rewrite !length_fmap. }
  split. { unfold encode_batch. cbn [attention_mask]. by rewrite !length_fmap. }
  split. { intros row. apply (Hrow pad_to), pad_to_length. }
  split. { intros row. apply (Hrow mask_to), mask_to_length. }
  intros Htrunc. unfold batch_width.
  assert (Hmax : In (max_list (length <$> (encode model_max_length <$> batch.*2)))
                    (length <$> (encode model_max_length <$> batch.*2))).
  { apply max_list_attained. destruct batch; [done|discriminate]. }
  apply in_map_iff in Hmax as (e & <- & He).
  apply in_map_iff in He as (text & <- & _). apply Htrunc.
Qed.

(** X14. In every batch some item is not padded: its row of
    'input_ids' is the encoding of its report and its row of
    'attention_mask' is all 1. *)
Theorem collate_fn_longest_unpadded (batch : list (tensor * string))
    (inputs : gmap string batch_value) (ids mask : list (list Z)) :
  collate_fn batch = Ok inputs ->
  inputs !! "input_ids" = Some (TokenMatrix ids) ->
  inputs !! "attention_mask" = Some (TokenMatrix mask) ->
  exists i data,
    batch !! i = Some data /\
    ids !! i = Some (encode model_max_length data.2) /\
    mask !! i
    = Some (replicate (length (encode model_max_length data.2)) 1).
Proof.
  intros (Hne & _ & Hids & Hmask)%collate_fn_fields Hids' Hmask'.
  rewrite Hids in Hids'. injection Hids' as <-.
  rewrite Hmask in Hmask'. injection Hmask' as <-.
  assert (Hmax : In (max_list (length <$> (encode model_max_length <$> batch.*2)))
                    (length <$> (encode model_max_length <$> batch.*2))).
  { apply max_list_attained. destruct batch; [done|discriminate]. }
  fold (batch_width batch) in Hmax.
  apply list_elem_of_In, list_elem_of_lookup in Hmax as [i Hi].
  rewrite !list_lookup_fmap in Hi.
  destruct (batch !! i) as [data|] eqn:E; [|discriminate].
  cbn in Hi. injection Hi as Hi.
  exists i, data. split; [done|].
  destruct (tokens_row batch i data E) as [Hrow_ids Hrow_mask].
  split.
  - refine (eq_trans Hrow_ids _). unfold pad_to.
    rewrite <- Hi, Nat.sub_diag. cbn [replicate]. by rewrite app_nil_r.
  - refine (eq_trans Hrow_mask _). unfold mask_to.
    rewrite <- Hi, Nat.sub_diag. cbn [replicate]. by rewrite app_nil_r.
Qed.

Lemma concat_blocks {X} (c : nat) (ts : list (list X)) :
  (forall t, In t ts -> length t = c) ->
  length (concat ts) = (c * length ts)%nat /\
  forall i t, ts !! i = Some t -> take c (drop (c * i) (concat ts)) = t.
Proof.
  induction ts as [|t0 ts IH]; intros Hc.
  - split; [cbn; lia|]. intros i t Hi. by rewrite lookup_nil in Hi.
  - destruct IH as [Hlen Hblocks]. { intros t Ht. apply Hc. by right. }
    pose proof (Hc t0 (or_introl eq_refl)) as H0.
    split. { cbn [concat length]. rewrite length_app, Hlen. lia. }
    intros [|i] t Hi; cbn [concat].
    + injection Hi as <-. rewrite Nat.mul_0_r. cbn [drop].
      rewrite <- H0, drop_0. apply take_app_length.
    + replace (c * S i)%nat with (length t0 + c * i)%nat by lia.
      rewrite drop_app_add. by apply Hblocks.
Qed.

(** X15. When the image tensor of every item of the batch has first
    dimension c, 'pixel_values' has c rows for each item and the image
    of item i is the rows from c*i up to c*i + c: with c channels, row i
    is the image of item i only for c = 1. *)
Theorem collate_fn_channel_blocks (batch : list (tensor * string))
    (inputs : gmap string batch_value) (pixel_values : tensor) (c : nat) :
  collate_fn batch = Ok inputs ->
  inputs !! "pixel_values" = Some (Pixels pixel_values) ->
  (forall data, In data batch -> length data.1 = c) ->
  length pixel_values = (c * length batch)%nat /\
  forall i data, batch !! i = Some data ->
    take c (drop (c * i) pixel_values) = data.1.
Proof.
  intros (Hne & Hpix & _)%collate_fn_fields Hpix' Hc.
  rewrite Hpix in Hpix'. injection Hpix' as <-.
  destruct (concat_blocks c batch.*1) as [Hlen Hblocks].
  { intros t (data & <- & Hd)%in_map_iff. by apply Hc. }
  split. { by rewrite Hlen, length_fmap. }
  intros i data Hi. apply Hblocks.
  apply list_lookup_fmap_Some. by exists data.
Qed.

(** X16. For a dataset whose transform gives one plane for every image,
    a batch of items that [__getitem__] returned is collated with its
    pairing kept: row i of 'pixel_values' is the image of item i. *)
Theorem collate_fn_of_getitem_items (self : ImageTextContrastiveDataset)
    (batch : list (tensor * string)) (inputs : gmap string batch_value)
    (pixel_values : tensor) :
  (forall image, length (transform self image) = 1%nat) ->
  (forall item, In item batch ->
     exists index rnd, getitem self index rnd = Ok item) ->
  collate_fn batch = Ok inputs ->
  inputs !! "pixel_values" = Some (Pixels pixel_values) ->
  rows_are_items batch pixel_values.
Proof.
  intros Hone Hitems (Hne & Hpix & _)%collate_fn_fields Hpix'.
  rewrite Hpix in Hpix'. injection Hpix' as <-.
  destruct (concat_rows batch.*1) as [Hlen Hrows].
  { intros t ([img text] & <- & Hd)%in_map_iff.
    destruct (Hitems _ Hd) as (index & rnd & Hget).
    apply getitem_Ok_inv in Hget as (row & image & s & _ & _ & -> & _).
    cbn [fst]. unfold unsqueeze1. by rewrite length_fmap. }
  split. { by rewrite Hlen, length_fmap. }
  intros i data Hi. apply (Hrows i data.1).
  apply list_lookup_fmap_Some. by exists data.
Qed.

End CollateMore.

Lemma collate_fn_token_shape_witness :
  exists width,
    (width <= 77)%nat /\
    forall row,
      In row (Pretrain.input_ids
                (Pretrain.encode_batch (H := Examples.toy_externals)
                (Examples.gray_batch).*2)) ->
      length row = width.
Proof.
  pose proof (collate_fn_value Examples.gray_batch ltac:(discriminate)) as Hret.
  destruct (collate_fn_fields _ _ Hret) as (_ & _ & Hids & Hmask).
  destruct (collate_fn_token_shape _ _ _ _ Hret Hids Hmask)
    as (width & _ & _ & Hrows & _ & Hwidth).
  exists width. split; [|exact Hrows].
  apply Hwidth. intros n text. cbn [Pretrain.encode Examples.toy_externals].
  rewrite length_take. lia.
Defined.

Lemma collate_fn_longest_unpadded_witness :
  exists i data,
    Examples.gray_batch !! i = Some data /\
    Pretrain.input_ids (Pretrain.encode_batch (H := Examples.toy_externals)
                (Examples.gray_batch).*2) !! i
    = Some (Pretrain.encode (Externals := Examples.toy_externals)
              Pretrain.model_max_length data.2).
Proof.
  pose proof (collate_fn_value Examples.gray_batch ltac:(discriminate)) as Hret.
  destruct (collate_fn_fields _ _ Hret) as (_ & _ & Hids & Hmask).
  destruct (collate_fn_longest_unpadded _ _ _ _ Hret Hids Hmask)
    as (i & data & Hi & Hrow & _).
  by exists i, data.
Defined.

Lemma collate_fn_channel_blocks_witness :
  length (concat (Examples.rgb_batch).*1) = 6%nat /\
  take 3 (drop 3 (concat (Examples.rgb_batch).*1))
  = [[4%nat]; [5%nat]; [6%nat]].
Proof.
  pose proof (collate_fn_value Examples.rgb_batch ltac:(discriminate)) as Hret.
  destruct (collate_fn_fields _ _ Hret) as (_ & Hpix & _).
  destruct (collate_fn_channel_blocks _ _ _ 3%nat Hret Hpix) as [Hlen Hblock].
  { intros data [<- | [<- | []]]; reflexivity. }
  split; [exact Hlen|]. exact (Hblock 1%nat _ eq_refl).
Defined.

Lemma collate_fn_of_getitem_items_witness :
  PretrainSpec.rows_are_items MoreExamples.fetched_batch
    (concat (MoreExamples.fetched_batch).*1).
Proof.
  pose proof (collate_fn_value MoreExamples.fetched_batch ltac:(discriminate))
    as Hret.
  destruct (collate_fn_fields _ _ Hret) as (_ & Hpix & _).
  eapply (collate_fn_of_getitem_items Examples.toy_dataset);
    [intros image; reflexivity | | exact Hret | exact Hpix].
  intros item [<- | [<- | []]].
  - exists 0, 5%nat. reflexivity.
  - exists 1, 0%nat. reflexivity.
Defined.

(** ** The warm-up steps and the start of the training *)

Section WarmupMore.
Import Pretrain PretrainSpec MoreSpec.

(** X17. From 454 training examples on, the warm-up steps passed to the
    trainer exceed the number of batches of the whole training (the 3
    epochs of ceil(n / 128) batches each): the warm-up is longer than
    the training. *)
Theorem warmup_exceeds_training (n : nat) :
  (454 <= n)%nat ->
  num_epochs train_config * steps_per_epoch n < warmup_steps n.
Proof.
  intros Hn. rewrite warmup_steps_div. unfold steps_per_epoch.
  cbn [num_epochs batch_size train_config].
  Z.to_euclidean_division_equations. lia.
Qed.

(** The warm-up steps grow with the number of examples, never
    exceed it, and are 0 for the empty dataset only. *)
Lemma warmup_steps_monotone (m n : nat) :
  ((m <= n)%nat -> warmup_steps m <= warmup_steps n) /\
  0 <= warmup_steps n <= Z.of_nat n /\
  (warmup_steps n = 0 <-> n = 0%nat).
Proof.
  rewrite !warmup_steps_div. split; [|split; [|split]].
  - intros Hmn. Z.to_euclidean_division_equations. lia.
  - Z.to_euclidean_division_equations. lia.
  - Z.to_euclidean_division_equations. lia.
  - intros ->. reflexivity.
Qed.

End WarmupMore.

Example warmup_within_training_257 :
  Pretrain.warmup_steps 257 = 8 /\
  Pretrain.num_epochs Pretrain.train_config * PretrainSpec.steps_per_epoch 257
  = 9.
Proof. split; reflexivity. Qed.

Lemma warmup_exceeds_training_witness :
  PretrainSpec.steps_per_epoch (128 * 100) = 100 /\
  Pretrain.num_epochs Pretrain.train_config
  * PretrainSpec.steps_per_epoch (128 * 100)
  < Pretrain.warmup_steps (128 * 100).
Proof.
  split; [vm_compute; reflexivity|].
  apply (warmup_exceeds_training (128 * 100)).
  apply Nat.leb_le. vm_compute. reflexivity.
Defined.

Lemma warmup_steps_monotone_witness :
  Pretrain.warmup_steps 100 <= Pretrain.warmup_steps 101 /\
  Pretrain.warmup_steps 101 = 4.
Proof.
  split; [|reflexivity].
  destruct (warmup_steps_monotone 100 101) as [Hmono _].
  apply Hmono. lia.
Defined.

(** ** The runs of the zero-shot script: outcomes and traces *)

Section ZeroShotMore.
Import ZeroShot ScriptSpec MoreScriptSpec.
Context `{Library}.

Lemma str_in_small (k : string) (l big : list string) :
  str_in k l = true -> incl l big -> In k big.
Proof. intros Hk%str_in_In Hincl. by apply Hincl. Qed.

Lemma tasks_of_recognized (dataname : string) :
  In dataname zeroshot_datanames -> returns (tasks_of dataname).
Proof.
  intros Hin. unfold tasks_of.
  destruct (str_in dataname ["chexpert-5x200"; "mimic-5x200"]) eqn:E1;
    [by eexists|].
  destruct (str_in dataname ["covid-test"; "covid-2x200-test"]) eqn:E2;
    [by eexists|].
  destruct (str_in dataname ["rsna-balanced-test"; "rsna-2x200-test"]) eqn:E3;
    [by eexists|].
  exfalso.
  assert (Hno : forall l, str_in dataname l = false -> ~ In dataname l).
  { intros l Hf Hl%str_in_In. congruence. }
  apply Hno in E1, E2, E3. cbn in Hin, E1, E2, E3. tauto.
Qed.

Lemma checked_run_cases {X} (check : result X) i dataname tasks cls_prompts
    mode :
  (exists x, check = Ok x /\
     (lift check;; build_and_evaluate i dataname tasks cls_prompts mode)
     = (run_events mode i, Ok (evaluate i dataname tasks cls_prompts mode))) \/
  (exists e, check = Raise e /\
     (lift check;; build_and_evaluate i dataname tasks cls_prompts mode)
     = ([], Raise e)).
Proof.
  destruct check as [x|e]; [left; by exists x | right; by exists e].
Qed.

Lemma assert_cases (b : bool) :
  assert b = Ok tt \/ assert b = Raise AssertionError.
Proof. destruct b; [by left | by right]. Qed.

Lemma index_of_raises {A} (l : list A) (i : Z) (e : exn) :
  index_of l i = Raise e -> e = IndexError.
Proof.
  unfold index_of. destruct (_ && _); [|congruence].
  destruct (l !! _); congruence.
Qed.

Lemma assert_second_key_raises cls_prompts tasks e :
  assert_second_key cls_prompts tasks = Raise e ->
  e = AssertionError \/ e = IndexError.
Proof.
  unfold assert_second_key.
  destruct (index_of (dict_keys cls_prompts) 1) as [k|e1] eqn:E1;
    rewrite ?bind_Ok, ?bind_Raise.
  2:{ intros [= <-]. right. by apply index_of_raises in E1. }
  destruct (index_of tasks 1) as [t|e2] eqn:E2;
    rewrite ?bind_Ok, ?bind_Raise.
  2:{ intros [= <-]. right. by apply index_of_raises in E2. }
  destruct (assert_cases (String.eqb k t)) as [-> | ->]; [discriminate|].
  intros [= <-]. by left.
Qed.

(** The outcome of one run. *)
Lemma run_cases df_sent dataname tasks i :
  (exists r, run df_sent dataname tasks i
             = (run_events (mode_of dataname) i, Ok r) /\
             In dataname zeroshot_datanames) \/
  (exists e, run df_sent dataname tasks i = ([], Raise e) /\
     ((e = NotImplementedError /\ ~ In dataname zeroshot_datanames) \/
      ((e = AssertionError \/ e = IndexError) /\
       In dataname zeroshot_datanames))).
Proof.
  unfold run, mode_of.
  destruct (str_in dataname ["chexpert-5x200"; "mimic-5x200"]) eqn:E1.
  { assert (Hin : In dataname zeroshot_datanames).
    { apply (str_in_small _ _ _ E1). intros ? ?; cbn in *; tauto. }
    match goal with |- context [lift ?c;; build_and_evaluate ?i ?d ?t ?p ?m] =>
      destruct (checked_run_cases c i d t p m)
        as [(x & Hc & ->) | (e & Hc & ->)] end.
    - left. by eexists.
    - right. exists e. split; [done|]. right. split; [|done].
      destruct (assert_cases (bool_decide
        (dict_keys (generate_chexpert_class_prompts i 10) = tasks)))
        as [Ha | Ha]; rewrite Ha in Hc; [discriminate|].
      injection Hc as <-. by left. }
  destruct (str_in dataname ["covid-test"; "covid-2x200-test"]) eqn:E2.
  { assert (Hin : In dataname zeroshot_datanames).
    { apply (str_in_small _ _ _ E2). intros ? ?; cbn in *; tauto. }
    match goal with |- context [lift ?c;; build_and_evaluate ?i ?d ?t ?p ?m] =>
      destruct (checked_run_cases c i d t p m)
        as [(x & Hc & ->) | (e & Hc & ->)] end.
    - left. by eexists.
    - right. exists e. split; [done|]. right. split; [|done].
      by apply assert_second_key_raises in Hc. }
  destruct (str_in dataname ["rsna-balanced-test"; "rsna-2x200-test"]) eqn:E3.
  { assert (Hin : In dataname zeroshot_datanames).
    { apply (str_in_small _ _ _ E3). intros ? ?; cbn in *; tauto. }
    match goal with |- context [lift ?c;; build_and_evaluate ?i ?d ?t ?p ?m] =>
      destruct (checked_run_cases c i d t p m)
        as [(x & Hc & ->) | (e & Hc & ->)] end.
    - left. by eexists.
    - right. exists e. split; [done|]. right. split; [|done].
      by apply assert_second_key_raises in Hc. }
  right. exists NotImplementedError. split; [reflexivity|]. left.
  split; [reflexivity|].
  assert (Hno : forall l, str_in dataname l = false -> ~ In dataname l).
  { intros l Hf Hl%str_in_In. congruence. }
  apply Hno in E1, E2, E3. cbn in E1, E2, E3 |- *. tauto.
Qed.

(** X19. The two dispatches of the zero-shot script agree: the first
    one returns a task list exactly for the six recognized names, and
    for those names the dispatch inside a run never raises
    [NotImplementedError]. *)
Theorem zeroshot_dispatches_agree (dataname : string) :
  (returns (tasks_of dataname) <-> In dataname zeroshot_datanames) /\
  (In dataname zeroshot_datanames ->
     forall df_sent tasks i,
       (run df_sent dataname tasks i).2 <> Raise NotImplementedError).
Proof.
  split.
  - split; [|apply tasks_of_recognized].
    intros [tasks Htasks].
    destruct (in_dec String.string_dec dataname zeroshot_datanames)
      as [Hin|Hout];
      [exact Hin|].
    rewrite (tasks_of_unrecognized _ Hout) in Htasks. discriminate.
  - intros Hin df_sent tasks i.
    destruct (run_cases df_sent dataname tasks i)
      as [(r & -> & _) | (e & -> & [[_ Hout] | [[-> | ->] _]])];
      cbn; try discriminate. by destruct Hout.
Qed.


Lemma runs_until_failure df_sent dataname tasks (pre : list nat) (k : nat)
    (post : list nat) (e : exn) (metrc_list : gmap string (list metric)) :
  (forall i, In i pre -> returns (run df_sent dataname tasks i).2) ->
  (run df_sent dataname tasks k).2 = Raise e ->
  runs df_sent dataname tasks (pre ++ k :: post) metrc_list
  = (concat (run_events (mode_of dataname) <$> pre), Raise e).
Proof.
  revert metrc_list. induction pre as [|i pre IH]; intros metrc_list Hpre Hk.
  - cbn [app runs fmap list_fmap concat].
    destruct (run_cases df_sent dataname tasks k)
      as [(r & Hrun & _) | (e' & Hrun & _)]; rewrite Hrun in Hk |- *.
    + discriminate.
    + injection Hk as ->. reflexivity.
  - cbn [app runs]. destruct (Hpre i (or_introl eq_refl)) as [r Hr].
    destruct (run_cases df_sent dataname tasks i)
      as [(r' & Hrun & _) | (e' & Hrun & _)]; rewrite Hrun in Hr |- *;
      [|discriminate].
    unfold mbind at 1, script_bind at 1.
    rewrite IH; [reflexivity| |exact Hk].
    intros j Hj. apply Hpre. by right.
Qed.

(** X21. The script stops at the first run whose check fails: when run
    k (k < 5) raises and the runs before it pass, the script ends with
    that error after exactly the k evaluations of runs 0 to k - 1, and
    reports nothing. *)
Theorem main_stops_at_first_failure (dataname : string)
    (tasks : list string) (k : nat) (e : exn) :
  tasks_of dataname = Ok tasks ->
  (k < n_runs)%nat ->
  (forall i, (i < k)%nat ->
     returns (run (read_csv "./local_data/sentence-label.csv")
                  dataname tasks i).2) ->
  (run (read_csv "./local_data/sentence-label.csv") dataname tasks k).2
  = Raise e ->
  main dataname
  = (startup_events dataname tasks
     ++ concat (run_events (mode_of dataname) <$> seq 0 k), Raise e) /\
  List.filter is_evaluate (main dataname).1 = Evaluate_called <$> seq 0 k.
Proof.
  intros Htasks Hk Hpre Hfail.
  assert (Hmain : main dataname
    = (startup_events dataname tasks
       ++ concat (run_events (mode_of dataname) <$> seq 0 k), Raise e)).
  { unfold main. rewrite Htasks. cbn [vit].
    replace (seq 0 n_runs) with (seq 0 k ++ k :: seq (S k) (n_runs - S k)).
    2:{ change (k :: seq (S k) (n_runs - S k)) with (seq k (S (n_runs - S k))).
        rewrite <- seq_app. f_equal. lia. }
    unfold mbind, script_bind, emit, lift.
    rewrite (runs_until_failure _ _ _ (seq 0 k) k _ e); [reflexivity| |done].
    intros i Hi%in_seq. apply Hpre. lia. }
  split; [exact Hmain|]. rewrite Hmain. cbn [fst].
  rewrite List.filter_app. cbn [startup_events List.filter is_evaluate app].
  clear. generalize 0%nat. induction k as [|k IH]; intros a; [reflexivity|].
  cbn [seq fmap list_fmap concat]. rewrite List.filter_app.
  cbn [run_events List.filter is_evaluate app]. f_equal. apply IH.
Qed.

Lemma runs_all_pass df_sent dataname tasks (todo : list nat)
    (metrc_list : gmap string (list metric)) :
  (forall i, In i todo -> returns (run df_sent dataname tasks i).2) ->
  exists final,
    runs df_sent dataname tasks todo metrc_list
    = (concat (run_events (mode_of dataname) <$> todo), Ok final).
Proof.
  revert metrc_list. induction todo as [|i todo IH]; intros metrc_list Hall.
  - by exists metrc_list.
  - cbn [runs]. destruct (Hall i (or_introl eq_refl)) as [r Hr].
    destruct (run_cases df_sent dataname tasks i)
      as [(r' & Hrun & _) | (e' & Hrun & _)]; rewrite Hrun in Hr |- *;
      [|discriminate].
    destruct (IH (collect r' metrc_list)) as [final Hfinal].
    { intros j Hj. apply Hall. by right. }
    exists final. unfold mbind at 1, script_bind at 1. by rewrite Hfinal.
Qed.

(** X22. When the check passes in all 5 runs, the script loads the
    pretrained model once, builds the dataset once and reads the
    sentence file once, and then each run builds its own collator, data
    loader, prompt classifier and evaluator before it evaluates: 29
    steps in all, the collator and the evaluator always in the mode of
    the dataset. *)
Theorem main_trace_of_passing_runs (dataname : string)
    (tasks : list string) :
  tasks_of dataname = Ok tasks ->
  (forall i, (i < n_runs)%nat ->
     returns (run (read_csv "./local_data/sentence-label.csv")
                  dataname tasks i).2) ->
  returns (main dataname).2 /\
  (main dataname).1
  = startup_events dataname tasks
    ++ concat (run_events (mode_of dataname) <$> [0; 1; 2; 3; 4]%nat) /\
  length (main dataname).1 = 29%nat.
Proof.
  intros Htasks Hall.
  destruct (runs_all_pass (read_csv "./local_data/sentence-label.csv")
              dataname tasks (seq 0 n_runs) ∅) as [final Hfinal].
  { intros i Hi%in_seq. apply Hall. lia. }
  assert (Hmain : main dataname
    = (startup_events dataname tasks
       ++ concat (run_events (mode_of dataname) <$> [0; 1; 2; 3; 4]%nat),
       Ok (summary <$> final))).
  { unfold main. rewrite Htasks. cbn [vit].
    unfold mbind, script_bind, emit, lift. rewrite Hfinal.
    unfold mret, script_ret. cbv beta iota zeta.
    rewrite app_nil_r. reflexivity. }
  rewrite Hmain. split; [by eexists|]. split; reflexivity.
Qed.

End ZeroShotMore.

Lemma zeroshot_dispatches_agree_witness :
  returns (ZeroShot.tasks_of (H := ScriptExamples.toy_zeroshot) "covid-test").
Proof.
  apply (zeroshot_dispatches_agree (H := ScriptExamples.toy_zeroshot)
           "covid-test").
  cbn. tauto.
Defined.


Lemma main_stops_at_first_failure_witness :
  ZeroShot.main (H := MoreScriptSpec.flaky_zeroshot) "covid-test"
  = (MoreScriptSpec.startup_events "covid-test" ["Normal"; "COVID"]
     ++ concat (MoreScriptSpec.run_events "binary" <$> [0; 1]%nat),
     Raise AssertionError) /\
  List.filter ScriptSpec.is_evaluate
    (ZeroShot.main (H := MoreScriptSpec.flaky_zeroshot) "covid-test").1
  = ZeroShot.Evaluate_called <$> [0; 1]%nat.
Proof.
  apply (main_stops_at_first_failure (H := MoreScriptSpec.flaky_zeroshot)
           "covid-test" ["Normal"; "COVID"] 2 AssertionError).
  - reflexivity.
  - unfold ZeroShot.n_runs. lia.
  - intros [|[|i]] Hi; [by eexists | by eexists | lia].
  - reflexivity.
Defined.

Lemma main_trace_of_passing_runs_witness :
  returns (ZeroShot.main (H := ScriptExamples.toy_zeroshot)
             "rsna-2x200-test").2 /\
  (ZeroShot.main (H := ScriptExamples.toy_zeroshot) "rsna-2x200-test").1
  = MoreScriptSpec.startup_events "rsna-2x200-test" ["Normal"; "Pneumonia"]
    ++ concat (MoreScriptSpec.run_events "binary" <$> [0; 1; 2; 3; 4]%nat) /\
  length (ZeroShot.main (H := ScriptExamples.toy_zeroshot)
            "rsna-2x200-test").1 = 29%nat.
Proof.
  apply (main_trace_of_passing_runs (H := ScriptExamples.toy_zeroshot)
           "rsna-2x200-test" ["Normal"; "Pneumonia"]).
  - reflexivity.
  - intros i _. by eexists.
Defined.

(** ** The collected metrics and their summary *)

Section CollectMore.
Import ZeroShot ScriptSpec.

(** X23. Collecting the result of a run never removes a key nor rewrites
    a value collected before: the list of a key is kept and gets at most
    one value at its end, and the keys afterwards are the keys before
    with those of the result other than 'pred' and 'labels'. *)
Theorem collect_only_appends (res : gmap string metric)
    (metrc_list : gmap string (list metric)) :
  (forall key vs, metrc_list !! key = Some vs ->
     exists added,
       collect res metrc_list !! key = Some (vs ++ added) /\
       (length added <= 1)%nat) /\
  (forall key,
     is_Some (collect res metrc_list !! key) <->
     is_Some (metrc_list !! key) \/
     (is_Some (res !! key) /\ key <> "pred" /\ key <> "labels")).
Proof.
  assert (Hfilter : forall key,
    str_in key ["pred"; "labels"] = false <->
    key <> "pred" /\ key <> "labels").
  { intros key. split.
    - intros Hf. split; intros ->; discriminate Hf.
    - intros [Hp Hl]. by apply not_pred_labels. }
  split.
  - intros key vs Hkey. rewrite collect_lookup, Hkey.
    destruct (str_in key ["pred"; "labels"]).
    + exists []. rewrite app_nil_r. split; [done|cbn; lia].
    + destruct (res !! key) as [v|].
      * exists [v]. split; [done|cbn; lia].
      * exists []. rewrite app_nil_r. split; [done|cbn; lia].
  - intros key. rewrite collect_lookup.
    destruct (str_in key ["pred"; "labels"]) eqn:E.
    + split; [by left|]. intros [Hm | (_ & Hp & Hl)]; [done|].
      rewrite (proj2 (Hfilter key) (conj Hp Hl)) in E. discriminate.
    + apply Hfilter in E. destruct (res !! key) as [v|].
      * split; [|by eexists]. intros _. right. split; [by eexists|done].
      * split; [by left|]. intros [Hm | ([? [=]] & _)]. done.
Qed.

End CollectMore.

Lemma collect_only_appends_witness :
  exists added,
    ZeroShot.collect {[ "acc" := ZeroShot.Scalar 1%R;
                        "pred" := ZeroShot.Array [] ]}
      {[ "acc" := [ZeroShot.Scalar 0%R] ]} !! "acc"
    = Some ([ZeroShot.Scalar 0%R] ++ added) /\
    (length added <= 1)%nat.
Proof.
  destruct (collect_only_appends
              {[ "acc" := ZeroShot.Scalar 1%R; "pred" := ZeroShot.Array [] ]}
              {[ "acc" := [ZeroShot.Scalar 0%R] ]}) as [Hkeep _].
  apply Hkeep. apply lookup_insert_eq.
Defined.

(** ** The configuration and the freezing loop of the linear probe *)

Section ProbeMore.
Import LinearProbe ScriptSpec.
Context `{Library} `{ZeroShot.Library}.

Lemma configure_cases (dataname : string) (cfg : task_config) :
  configure dataname = Ok cfg ->
  ((dataname = "chexpert-5x200" \/ dataname = "mimic-5x200") /\
   cfg = {| tasks := CHEXPERT_COMPETITION_TASKS; num_class := 5;
            mode := "multiclass";
            train_dataname := dataname +:+ "-finetune";
            val_dataname := dataname |}) \/
  (dataname = "covid" /\
   cfg = {| tasks := COVID_TASKS; num_class := 2; mode := "binary";
            train_dataname := "covid-0.2-train";
            val_dataname := "covid-test" |}) \/
  (dataname = "covid-2x200" /\
   cfg = {| tasks := COVID_TASKS; num_class := 2; mode := "binary";
            train_dataname := "covid-2x200-train";
            val_dataname := "covid-2x200-test" |}) \/
  ((dataname = "rsna-balanced" \/ dataname = "rsna-2x200") /\
   cfg = {| tasks := RSNA_TASKS; num_class := 2; mode := "binary";
            train_dataname := dataname +:+ "-train";
            val_dataname := dataname +:+ "-test" |}).
Proof.
  unfold configure.
  destruct (str_in dataname ["chexpert-5x200"; "mimic-5x200"]) eqn:E1.
  { intros [= <-]. left. split; [|reflexivity].
    apply str_in_In in E1. cbn in E1. intuition congruence. }
  destruct (String.eqb_spec dataname "covid") as [->|_].
  { intros [= <-]. right. left. by split. }
  destruct (String.eqb_spec dataname "covid-2x200") as [->|_].
  { intros [= <-]. right. right. left. by split. }
  destruct (str_in dataname ["rsna-balanced"; "rsna-2x200"]) eqn:E4;
    [|discriminate].
  intros [= <-]. right. right. right. split; [|reflexivity].
  apply str_in_In in E4. cbn in E4. intuition congruence.
Qed.

(** X25. The linear-probe script configures a task exactly for its six
    recognized names.  In every configuration the training dataset and
    the validation dataset have different names, and the number of
    classes goes with the mode: 5 classes for 'multiclass', 2 for
    'binary'. *)
Theorem configure_consistent (dataname : string) :
  (returns (configure dataname) <-> In dataname probe_datanames) /\
  (forall cfg, configure dataname = Ok cfg ->
     train_dataname cfg <> val_dataname cfg /\
     ((mode cfg = "multiclass" /\ num_class cfg = 5) \/
      (mode cfg = "binary" /\ num_class cfg = 2))).
Proof.
  split.
  - split.
    + intros [cfg Hcfg].
      destruct (configure_cases dataname cfg Hcfg)
        as [[[-> | ->] _] | [[-> _] | [[-> _] | [[-> | ->] _]]]];
        cbn; tauto.
    + intros Hin. cbn in Hin.
      destruct Hin as [<- | [<- | [<- | [<- | [<- | [<- | []]]]]]];
        by eexists.
  - intros cfg Hcfg.
    destruct (configure_cases dataname cfg Hcfg)
      as [[[-> | ->] ->] | [[-> ->] | [[-> ->] | [[-> | ->] ->]]]];
      (split; [discriminate|]); cbn; tauto.
Qed.

(** X26. The validation dataset of every configuration of the linear
    probe is a dataset the zero-shot script recognizes, and the
    zero-shot script gives it the task list of the same name: both
    scripts evaluate a dataset on the same classes when they read the
    same constants. *)
Theorem probe_validates_on_zeroshot_data (dataname : string)
    (cfg : task_config) :
  configure dataname = Ok cfg ->
  In (val_dataname cfg) zeroshot_datanames /\
  (ZeroShot.CHEXPERT_COMPETITION_TASKS = CHEXPERT_COMPETITION_TASKS ->
   ZeroShot.COVID_TASKS = COVID_TASKS ->
   ZeroShot.RSNA_TASKS = RSNA_TASKS ->
   ZeroShot.tasks_of (val_dataname cfg) = Ok (tasks cfg)).
Proof.
  intros Hcfg.
  destruct (configure_cases dataname cfg Hcfg)
    as [[[-> | ->] ->] | [[-> ->] | [[-> ->] | [[-> | ->] ->]]]];
    (split; [cbn; tauto|]); intros H1 H2 H3; cbn [tasks val_dataname];
    first [rewrite <- H1 | rewrite <- H2 | rewrite <- H3]; reflexivity.
Qed.

(** X27. The freezing loop changes no name, no tensor and no order, and
    running it twice changes nothing more.  It never sets a flag: a
    parameter that is trainable after the loop is a head parameter that
    was trainable before it. *)
Theorem freeze_only_lowers_flags {T} (clf : list (string * parameter T)) :
  freeze (freeze clf) = freeze clf /\
  length (freeze clf) = length clf /\
  forall i name p,
    freeze clf !! i = Some (name, p) ->
    exists p0,
      clf !! i = Some (name, p0) /\
      data p = data p0 /\
      (requires_grad p = true ->
         head_name name /\ requires_grad p0 = true).
Proof.
  split; [|split].
  - unfold freeze. rewrite <- list_fmap_compose. apply list_fmap_ext.
    intros i [name p] _. cbn [compose]. unfold freeze_one at 2.
    destruct (str_in name ["fc.weight"; "fc.bias"]) eqn:E; cbn [negb].
    + unfold freeze_one. by rewrite E.
    + unfold freeze_one. by rewrite E.
  - unfold freeze. apply length_fmap.
  - intros i name p Hi. rewrite freeze_lookup in Hi.
    destruct (clf !! i) as [[name0 p0]|]; [|discriminate].
    assert (Hone : freeze_one (name0, p0) = (name, p)).
    { cbn [fmap option_fmap option_map] in Hi. congruence. }
    unfold freeze_one in Hone.
    destruct (str_in name0 ["fc.weight"; "fc.bias"]) eqn:E; cbn [negb] in Hone.
    + injection Hone as <- <-. exists p0. split; [done|]. split; [done|].
      intros Hg. split; [by apply head_name_test|exact Hg].
    + injection Hone as <- <-. exists p0. split; [done|]. split; [done|].
      cbn. discriminate.
Qed.

End ProbeMore.

Lemma configure_consistent_witness :
  returns (LinearProbe.configure (H := ScriptExamples.toy_probe) "covid").
Proof.
  apply (configure_consistent (H := ScriptExamples.toy_probe) "covid").
  cbn. tauto.
Defined.

Lemma probe_validates_on_zeroshot_data_witness :
  ZeroShot.tasks_of (H := ScriptExamples.toy_zeroshot) "covid-test"
  = Ok ["Normal"; "COVID"].
Proof.
  destruct (probe_validates_on_zeroshot_data
              (H := ScriptExamples.toy_probe)
              (H0 := ScriptExamples.toy_zeroshot) "covid" _ eq_refl)
    as [_ Htasks].
  exact (Htasks eq_refl eq_refl eq_refl).
Defined.

Lemma freeze_only_lowers_flags_witness :
  exists p0,
    [("fc.bias", {| LinearProbe.data := 1; LinearProbe.requires_grad := false |});
     ("model.w", {| LinearProbe.data := 2; LinearProbe.requires_grad := true |})]
      !! 0%nat = Some ("fc.bias", p0) /\
    LinearProbe.requires_grad p0 = false.
Proof.
  destruct (freeze_only_lowers_flags
    [("fc.bias", {| LinearProbe.data := 1; LinearProbe.requires_grad := false |});
     ("model.w", {| LinearProbe.data := 2; LinearProbe.requires_grad := true |})])
    as (_ & _ & Hflags).
  destruct (Hflags 0%nat "fc.bias"
              {| LinearProbe.data := 1; LinearProbe.requires_grad := false |}
              eq_refl) as (p0 & Hp0 & _ & _).
  exists p0. split; [exact Hp0|]. by injection Hp0 as <-.
Defined.
